(** * Ansible XEN Inventory: a shallow embedding of [xen_inventory.py]

    The development follows the source file top-down:

    - [PyValue]   the Python values the script builds and reads back
                  (None, bool, int, float, str, list, dict), dicts in
                  insertion order;
    - [Json]      [json.dump] on those values, and the outcomes of
                  [json.load];
    - [PosixPath] [os.path.dirname];
    - [XenAPI]    the records and the calls of the session;
    - [Runtime]   exceptions, the file system, the clock and the monad the
                  methods of [XenServer] run in;
    - [PyOps]     [setdefault], [append], item access and assignment;
    - [XenServer] [list_inventory], [list_and_save], [cached_inventory];
    - [Props]     the vocabulary of the properties, [Scenario] a sample pool;
    - [Expected]  the passes and the calls a build is expected to make;
    - [Main]      [XenServer.__init__] and [main], on the values of
                  [get_args] and [parse_config];
    - [Cases]     more sample data;
    - the properties of the cache-coherent inventory retrieval, then of the
      builder, the lookup and the script as a whole.

    Times are integers: [time()] and [st_mtime] are compared as the code
    compares them, without the rounding of floating point.

    The libraries the script calls are taken as they are: a XenAPI session
    is given by its replies, and [json.load] by what it answers on each
    text, so that a property holds of every server and of every version and
    recursion limit of the decoder. *)

From Stdlib Require Import ZArith Ascii String List Lia DecimalString.
From stdpp Require Import gmap strings list.

Open Scope Z_scope.
Set Warnings "-register-all".

(** ** Python values *)

Module PyValue.

(** A Python [str] is modelled by the Rocq [string] of its UTF-8 encoding,
    a surrogate code point being encoded like any other code point of its
    range (three bytes): every [str] has a model string, two [str] are equal
    exactly when their model strings are, concatenation, emptiness and the
    search for ["/"] are those of the bytes.  The script looks at no
    character of a string otherwise.  A [float] is held by the text
    [json.dump] writes for it ([float.__repr__], or [NaN], [Infinity],
    [-Infinity]): the script builds no float, but a cache file may hold
    one. *)
Inductive pyval : Type :=
| PNone
| PBool (b : bool)
| PInt (z : Z)
| PFloat (repr : string)
| PStr (s : string)
| PList (l : list pyval)
| PDict (d : list (string * pyval)).

(** A [dict] keeps its items in insertion order; its keys are unique. *)
Definition items (A : Type) : Type := list (string * A).

Definition keys {A} (d : items A) : list string := map fst d.

(** [k in d] and [d.get(k)] *)
Fixpoint dict_get {A} (d : items A) (k : string) : option A :=
  match d with
  | [] => None
  | (k', v) :: d' => if String.eqb k' k then Some v else dict_get d' k
  end.

(** [d[k] = v]: an existing key keeps its position, a new one goes last. *)
Fixpoint dict_set {A} (d : items A) (k : string) (v : A) : items A :=
  match d with
  | [] => [(k, v)]
  | (k', v') :: d' =>
      if String.eqb k' k then (k', v) :: d' else (k', v') :: dict_set d' k v
  end.

(** Induction over values, with the elements of a list and the values of a
    dict as induction hypotheses. *)
Section pyval_induction.
Variable P : pyval -> Prop.
Hypothesis HNone : P PNone.
Hypothesis HBool : forall b, P (PBool b).
Hypothesis HInt : forall z, P (PInt z).
Hypothesis HFloat : forall r, P (PFloat r).
Hypothesis HStr : forall s, P (PStr s).
Hypothesis HList : forall l, Forall P l -> P (PList l).
Hypothesis HDict : forall d, Forall (fun kv => P (snd kv)) d -> P (PDict d).

Fixpoint pyval_nested_ind (v : pyval) : P v :=
  match v with
  | PNone => HNone
  | PBool b => HBool b
  | PInt z => HInt z
  | PFloat r => HFloat r
  | PStr s => HStr s
  | PList l =>
      HList l ((fix go (l : list pyval) : Forall P l :=
                  match l with
                  | [] => List.Forall_nil _
                  | x :: l' =>
                      @List.Forall_cons _ _ x l' (pyval_nested_ind x) (go l')
                  end) l)
  | PDict d =>
      HDict d ((fix go (d : list (string * pyval))
                  : Forall (fun kv => P (snd kv)) d :=
                  match d with
                  | [] => List.Forall_nil _
                  | kv :: d' =>
                      @List.Forall_cons _ _ kv d' (pyval_nested_ind (snd kv)) (go d')
                  end) d)
  end.
End pyval_induction.

End PyValue.
Export PyValue.

(** ** [json.dump] and [json.load]

    The encoder is [json.dump] with its default settings (separators [", "]
    and [": "], [ensure_ascii=True]).  The decoder is not a function of this
    file: what [json.load] answers on a text is a datum of the world
    ([Runtime.json_load]), one of the outcomes [decoded]. *)

Module Json.

(** Code points: ["0"] is 48, ["a"] is 97. *)
Definition between (lo hi n : nat) : bool := (lo <=? n)%nat && (n <=? hi)%nat.

(** The lower-case digit [format(n, 'x')] writes, for [n < 16]. *)
Definition hex_digit (n : nat) : ascii :=
  ascii_of_nat (if (n <? 10)%nat then 48 + n else 87 + n).

(** [format(n, '04x')], for [n < 65536] *)
Definition hex4 (n : N) : string :=
  let digit k := hex_digit (N.to_nat ((n / k) mod 16)) in
  String (digit 4096%N) (String (digit 256%N) (String (digit 16%N)
    (String (digit 1%N) EmptyString))).

(** A code point as [ensure_ascii] escapes it: one escape below 65536, the
    escapes of its two surrogates from there on. *)
Definition escape_code_point (n : N) : string :=
  if (n <? 65536)%N then "\u" +:+ hex4 n
  else "\u" +:+ hex4 (55296 + (n - 65536) / 1024)
       +:+ "\u" +:+ hex4 (56320 + (n - 65536) mod 1024).

(** One ASCII character of a string literal (a byte that is part of no
    code point is written like the character of its value). *)
Definition escape_char (c : ascii) : string :=
  match c with
  | "034"%char => String "\" (String "034" EmptyString)
  | "\"%char => "\\"
  | "010"%char => "\n"
  | "013"%char => "\r"
  | "009"%char => "\t"
  | "008"%char => "\b"
  | "012"%char => "\f"
  | _ =>
      if between 32 126 (nat_of_ascii c) then String c EmptyString
      else escape_code_point (N_of_ascii c)
  end.

(** The text of a string literal, read off the UTF-8 bytes: [pending] holds
    the bits of a code point of which [more] continuation bytes are yet to
    come. *)
Fixpoint escape_from (pending : N) (more : nat) (s : string) : string :=
  match s with
  | EmptyString => EmptyString
  | String c r =>
      let n := nat_of_ascii c in
      match more with
      | O =>
          if between 192 223 n then escape_from (N_of_ascii c - 192) 1 r
          else if between 224 239 n then escape_from (N_of_ascii c - 224) 2 r
          else if between 240 247 n then escape_from (N_of_ascii c - 240) 3 r
          else escape_char c +:+ escape_from 0 0 r
      | S more' =>
          let bits := (pending * 64 + (N_of_ascii c - 128))%N in
          match more' with
          | O => escape_code_point bits +:+ escape_from 0 0 r
          | S _ => escape_from bits more' r
          end
      end
  end.

Definition escape (s : string) : string := escape_from 0 0 s.

Definition quote (s : string) : string :=
  String "034" (escape s +:+ String "034" EmptyString).

Fixpoint join (sep : string) (l : list string) : string :=
  match l with
  | [] => EmptyString
  | [x] => x
  | x :: l' => x +:+ sep +:+ join sep l'
  end.

Fixpoint dumps (v : pyval) : string :=
  match v with
  | PNone => "null"
  | PBool true => "true"
  | PBool false => "false"
  | PInt z => NilZero.string_of_int (Z.to_int z)
  | PFloat repr => repr
  | PStr s => quote s
  | PList l => "[" +:+ join ", " (map dumps l) +:+ "]"
  | PDict d =>
      "{" +:+ join ", " (map (fun kv => quote (fst kv) +:+ ": " +:+ dumps (snd kv)) d) +:+ "}"
  end.

(** What [json.load] does with the text of a file: it returns a value, or
    raises [ValueError] (text that is no JSON document, bytes that are no
    UTF-8, an integer literal beyond the digit limit), or raises
    [RecursionError] (arrays and objects nested deeper than the interpreter
    goes). *)
Inductive decoded : Type :=
| Parsed (v : pyval)
| Malformed
| TooDeep.

End Json.

(** ** [os.path] *)

Module PosixPath.

Fixpoint has_sep (s : string) : bool :=
  match s with
  | EmptyString => false
  | String c r => if Ascii.eqb c "/" then true else has_sep r
  end.

Fixpoint all_sep (s : string) : bool :=
  match s with
  | EmptyString => true
  | String c r => Ascii.eqb c "/" && all_sep r
  end.

(** [p[:p.rfind('/') + 1]] *)
Fixpoint upto_last_sep (p : string) : string :=
  match p with
  | EmptyString => EmptyString
  | String c r => if has_sep p then String c (upto_last_sep r) else EmptyString
  end.

(** [head.rstrip('/')] *)
Fixpoint rstrip_sep (head : string) : string :=
  match head with
  | EmptyString => EmptyString
  | String c r => if all_sep head then EmptyString else String c (rstrip_sep r)
  end.

(** [posixpath.dirname] *)
Definition dirname (p : string) : string :=
  let head := upto_last_sep p in
  if negb (String.eqb head EmptyString) && negb (all_sep head)
  then rstrip_sep head else head.

Fixpoint ends_with_sep (p : string) : bool :=
  match p with
  | EmptyString => false
  | String c EmptyString => Ascii.eqb c "/"
  | String _ r => ends_with_sep r
  end.

End PosixPath.

(** ** The XenAPI session

    The session is the black-box RPC client of the script: each record
    fetch either replies or raises [XenAPI.Failure]. *)

Module XenAPI.

Inductive reply (A : Type) : Type :=
| Reply (a : A)
| Fault (details : string).
Arguments Reply {A} a.
Arguments Fault {A} details.

Module VM.
Record record : Type := {
  name_label : string;
  is_control_domain : bool;
  is_a_template : bool;
  VIFs : list string;
  guest_metrics : string
}.
End VM.

Module VIF.
Record record : Type := { network : string }.
End VIF.

Module network.
Record record : Type := { name_label : string }.
End network.

Module VM_guest_metrics.
(** [networks] is [None] when the record has no ["networks"] key. *)
Record record : Type := { networks : option (gmap string string) }.
End VM_guest_metrics.

Record Session : Type := {
  VM_get_all : reply (list string);
  VM_get_record : string -> reply VM.record;
  VIF_get_record : string -> reply VIF.record;
  network_get_record : string -> reply network.record;
  VM_guest_metrics_get_record : string -> reply VM_guest_metrics.record
}.

(** The remote calls a session has served. *)
Inductive call : Type :=
| CallVMGetAll
| CallVMGetRecord (ref : string)
| CallVIFGetRecord (ref : string)
| CallNetworkGetRecord (ref : string)
| CallGuestMetricsGetRecord (ref : string).

Definition is_listing (c : call) : bool :=
  match c with
  | CallVMGetAll => true
  | _ => false
  end.

End XenAPI.

(** ** Exceptions, the file system and the monad of the script *)

Module Runtime.

Inductive exn : Type :=
| SystemExit (code : Z)
| TypeError
| AttributeError
| KeyError
| ValueError
| RecursionError
(** [detail] is the file name of an error of the operating system
    ([exc.filename]), and the message of an [OSError] raised with a message
    only *)
| OSError (errno : option Z) (detail : string)
| Failure (details : string).                     (* [XenAPI.Failure] *)

Definition ENOENT : Z := 2.
Definition EACCES : Z := 13.
Definition EEXIST : Z := 17.
Definition ENOTDIR : Z := 20.
Definition EISDIR : Z := 21.

Inductive result (A : Type) : Type :=
| Ok (a : A)
| Raise (e : exn).
Arguments Ok {A} a.
Arguments Raise {A} e.

#[global] Instance result_ret : MRet result := fun A a => Ok a.
#[global] Instance result_bind : MBind result := fun A B f r =>
  match r with
  | Ok a => f a
  | Raise e => Raise e
  end.

(** Paths are compared as written (no normalisation, no links); the empty
    path names nothing.  Permissions are modelled where the script looks at
    them: a read-only directory refuses new entries. *)
Inductive node : Type :=
| RegularFile (st_mtime : Z) (content : string)
| Directory (st_mtime : Z).

Definition st_mtime (n : node) : Z :=
  match n with
  | RegularFile t _ => t
  | Directory t => t
  end.

Record world : Type := {
  fs : gmap string node;
  (** directories in which no entry may be created *)
  readonly : gset string;
  clock : Z;
  rpc_log : list XenAPI.call;
  stdout : list string;
  (** what [json.load] answers on the text of a file, in this interpreter *)
  json_load : string -> Json.decoded
}.

Definition set_fs (f : gmap string node -> gmap string node) (w : world) : world :=
  {| fs := f (fs w); readonly := readonly w; clock := clock w;
     rpc_log := rpc_log w; stdout := stdout w; json_load := json_load w |}.

Definition set_readonly (f : gset string -> gset string) (w : world) : world :=
  {| fs := fs w; readonly := f (readonly w); clock := clock w;
     rpc_log := rpc_log w; stdout := stdout w; json_load := json_load w |}.


Definition log_calls (l : list XenAPI.call) (w : world) : world :=
  {| fs := fs w; readonly := readonly w; clock := clock w;
     rpc_log := rpc_log w ++ l; stdout := stdout w; json_load := json_load w |}.

Definition log_line (s : string) (w : world) : world :=
  {| fs := fs w; readonly := readonly w; clock := clock w;
     rpc_log := rpc_log w; stdout := stdout w ++ [s]; json_load := json_load w |}.

Definition M (A : Type) : Type := world -> result A * world.

#[global] Instance M_ret : MRet M := fun A a w => (Ok a, w).
#[global] Instance M_bind : MBind M := fun A B f m w =>
  match m w with
  | (Ok a, w') => f a w'
  | (Raise e, w') => (Raise e, w')
  end.

Definition raise {A} (e : exn) : M A := fun w => (Raise e, w).

Definition lift {A} (r : result A) : M A := fun w => (r, w).

(** [try: body except ...: handler]; [handler e = None] when no clause
    catches [e]. *)
Definition try_except {A} (body : M A) (handler : exn -> option (M A)) : M A :=
  fun w =>
    match body w with
    | (Ok a, w') => (Ok a, w')
    | (Raise e, w') =>
        match handler e with
        | Some h => h w'
        | None => (Raise e, w')
        end
    end.

(** [for x in xs: body], threading the object the body mutates. *)
Fixpoint for_each {X A} (xs : list X) (body : X -> A -> M A) (a : A) : M A :=
  match xs with
  | [] => mret a
  | x :: xs' => a' ← body x a; for_each xs' body a'
  end.

Definition print (s : string) : M unit := fun w => (Ok tt, log_line s w).

(** *** [str(exc)] of an [OSError] *)

Fixpoint has_char (c : ascii) (s : string) : bool :=
  match s with
  | EmptyString => false
  | String x r => Ascii.eqb x c || has_char c r
  end.

(** One character of [repr(s)] inside the quotes [q]; a character outside
    ASCII is taken to be printable. *)
Definition repr_char (q c : ascii) : string :=
  let n := nat_of_ascii c in
  if Ascii.eqb c q || Ascii.eqb c "\" then String "\" (String c EmptyString)
  else if Ascii.eqb c "009" then "\t"
  else if Ascii.eqb c "010" then "\n"
  else if Ascii.eqb c "013" then "\r"
  else if (n <? 32)%nat || (n =? 127)%nat then
    "\x" +:+ String (Json.hex_digit (n / 16)) (String (Json.hex_digit (n mod 16)) EmptyString)
  else String c EmptyString.

Fixpoint repr_body (q : ascii) (s : string) : string :=
  match s with
  | EmptyString => EmptyString
  | String c r => repr_char q c +:+ repr_body q r
  end.

(** [repr(s)]: single quotes, unless [s] holds a single quote and no
    double quote. *)
Definition repr (s : string) : string :=
  let q := if has_char "'" s && negb (has_char "034" s) then "034"%char else "'"%char in
  String q (repr_body q s +:+ String q EmptyString).

(** [os.strerror] on Linux *)
Definition os_strerror (errno : Z) : string :=
  match errno with
  | 2 => "No such file or directory"
  | 13 => "Permission denied"
  | 17 => "File exists"
  | 20 => "Not a directory"
  | 21 => "Is a directory"
  | _ => "Unknown error " +:+ NilZero.string_of_int (Z.to_int errno)
  end.

Definition str_OSError (errno : option Z) (detail : string) : string :=
  match errno with
  | Some n =>
      "[Errno " +:+ NilZero.string_of_int (Z.to_int n) +:+ "] " +:+ os_strerror n
      +:+ ": " +:+ repr detail
  | None => detail
  end.

Definition exit {A} (code : Z) : M A := raise (SystemExit code).

Definition time : M Z := fun w => (Ok (clock w), w).

(** *** File system *)

Definition lookup_path (w : world) (p : string) : option node :=
  if String.eqb p EmptyString then None else fs w !! p.

Definition os_path_isfile (path : option string) : M bool := fun w =>
  match path with
  | None => (Raise TypeError, w)
  | Some p =>
      match lookup_path w p with
      | Some (RegularFile _ _) => (Ok true, w)
      | _ => (Ok false, w)
      end
  end.

Definition os_path_exists (p : string) : M bool := fun w =>
  match lookup_path w p with
  | Some _ => (Ok true, w)
  | None => (Ok false, w)
  end.

Definition os_path_dirname (path : option string) : M string :=
  match path with
  | None => raise TypeError
  | Some p => mret (PosixPath.dirname p)
  end.

Definition os_stat (path : option string) : M node := fun w =>
  match path with
  | None => (Raise TypeError, w)
  | Some p =>
      match lookup_path w p with
      | Some n => (Ok n, w)
      | None => (Raise (OSError (Some ENOENT) p), w)
      end
  end.

(** What stands where new entries of directory [d] go: [""] is the current
    directory. *)
Definition parent_error (w : world) (d : string) (p : string) : option exn :=
  if String.eqb d EmptyString then
    if bool_decide (d ∈ readonly w) then Some (OSError (Some EACCES) p) else None
  else
    match lookup_path w d with
    | None => Some (OSError (Some ENOENT) p)
    | Some (RegularFile _ _) => Some (OSError (Some ENOTDIR) p)
    | Some (Directory _) =>
        if bool_decide (d ∈ readonly w) then Some (OSError (Some EACCES) p) else None
    end.

(** [os.mkdir] *)
Definition os_mkdir (name : string) : M unit := fun w =>
  if String.eqb name EmptyString then (Raise (OSError (Some ENOENT) name), w)
  else
    match lookup_path w name with
    | Some _ => (Raise (OSError (Some EEXIST) name), w)
    | None =>
        match parent_error w (PosixPath.dirname name) name with
        | Some e => (Raise e, w)
        | None =>
            (Ok tt, set_readonly (fun r => r ∖ {[name]})
                      (set_fs (insert name (Directory (clock w))) w))
        end
    end.

(** [os.makedirs]: the missing ancestors first, then [name] itself. *)
Fixpoint makedirs_from (fuel : nat) (name : string) : M unit :=
  let head := PosixPath.dirname name in
  match fuel with
  | O => os_mkdir name
  | S fuel =>
      exists_head ← os_path_exists head;
      (if negb (String.eqb head EmptyString) && negb (String.eqb head name)
          && negb exists_head
       then
         try_except (makedirs_from fuel head)
           (fun e =>
              match e with
              | OSError (Some 17) _ => Some (mret tt)  (* FileExistsError *)
              | _ => None
              end)
       else mret tt);;
      os_mkdir name
  end.

Definition os_makedirs (name : string) : M unit :=
  makedirs_from (String.length name) name.

(** [open(path, 'w')]: the file is created or truncated. *)
Definition open_w (path : option string) : M string := fun w =>
  match path with
  | None => (Raise TypeError, w)
  | Some p =>
      let created := set_fs (insert p (RegularFile (clock w) EmptyString)) w in
      match lookup_path w p with
      | Some (RegularFile _ _) => (Ok p, created)
      | Some (Directory _) => (Raise (OSError (Some EISDIR) p), w)
      | None =>
          if String.eqb p EmptyString then (Raise (OSError (Some ENOENT) p), w)
          else if PosixPath.ends_with_sep p then (Raise (OSError (Some EISDIR) p), w)
          else
            match parent_error w (PosixPath.dirname p) p with
            | Some e => (Raise e, w)
            | None => (Ok p, created)
            end
      end
  end.

(** [open(path)]: the text of the file. *)
Definition open_r (path : option string) : M string := fun w =>
  match path with
  | None => (Raise TypeError, w)
  | Some p =>
      match lookup_path w p with
      | Some (RegularFile _ text) => (Ok text, w)
      | Some (Directory _) => (Raise (OSError (Some EISDIR) p), w)
      | None => (Raise (OSError (Some ENOENT) p), w)
      end
  end.

(** [json.dump(data, fp)] on a file opened for writing *)
Definition dump (data : pyval) (fp : string) : M unit := fun w =>
  (Ok tt, set_fs (insert fp (RegularFile (clock w) (Json.dumps data))) w).

(** [json.load(f)] on the text of a file opened for reading *)
Definition load (text : string) : M pyval := fun w =>
  match json_load w text with
  | Json.Parsed v => (Ok v, w)
  | Json.Malformed => (Raise ValueError, w)
  | Json.TooDeep => (Raise RecursionError, w)
  end.

End Runtime.

(** ** Dynamic operations on Python objects *)

Module PyOps.
Import Runtime.

(** [o[k]] *)
Definition py_getitem (o : pyval) (k : string) : result pyval :=
  match o with
  | PDict d =>
      match dict_get d k with
      | Some v => Ok v
      | None => Raise KeyError
      end
  | _ => Raise TypeError
  end.

(** [o[k] = v] *)
Definition py_setitem (o : pyval) (k : string) (v : pyval) : result pyval :=
  match o with
  | PDict d => Ok (PDict (dict_set d k v))
  | _ => Raise TypeError
  end.

(** [o.setdefault(k, default)]: the value now under [k], and [o] after the
    call. *)
Definition py_setdefault (o : pyval) (k : string) (default : pyval)
  : result (pyval * pyval) :=
  match o with
  | PDict d =>
      match dict_get d k with
      | Some v => Ok (v, o)
      | None => Ok (default, PDict (d ++ [(k, default)]))
      end
  | _ => Raise AttributeError
  end.

(** [o.append(x)] *)
Definition py_append (o : pyval) (x : pyval) : result pyval :=
  match o with
  | PList l => Ok (PList (l ++ [x]))
  | _ => Raise AttributeError
  end.

(** [o.get(k)] on a value read back from a document *)
Definition py_get (o : pyval) (k : string) : option pyval :=
  match o with
  | PDict d => dict_get d k
  | _ => None
  end.

End PyOps.

(** ** class [XenServer] *)

Module XenServer.
Import Runtime PyOps.
Export XenAPI.

Section methods.

(** [self.session] *)
Variable session : Session.

Definition remote {A} (c : call) (r : reply A) : M A := fun w =>
  match r with
  | Reply a => (Ok a, log_calls [c] w)
  | Fault d => (Raise (Failure d), log_calls [c] w)
  end.

Definition xenapi_VM_get_all : M (list string) :=
  remote CallVMGetAll (VM_get_all session).
Definition xenapi_VM_get_record (vm : string) : M VM.record :=
  remote (CallVMGetRecord vm) (VM_get_record session vm).
Definition xenapi_VIF_get_record (i : string) : M VIF.record :=
  remote (CallVIFGetRecord i) (VIF_get_record session i).
Definition xenapi_network_get_record (net_ref : string) : M network.record :=
  remote (CallNetworkGetRecord net_ref) (network_get_record session net_ref).
Definition xenapi_VM_guest_metrics_get_record (ref : string)
  : M VM_guest_metrics.record :=
  remote (CallGuestMetricsGetRecord ref) (VM_guest_metrics_get_record session ref).

(** [inventory.setdefault(group, []).append(name)]: the list [setdefault]
    returns is the one the dict holds, so the append shows in the dict. *)
Definition setdefault_append (inventory : pyval) (group : string) (name : pyval)
  : result pyval :=
  '(members, inventory) ← py_setdefault inventory group (PList []);
  members ← py_append members name;
  py_setitem inventory group members.

(** [inventory["_meta"]["hostvars"][name] = host_vars] *)
Definition set_hostvars (inventory : pyval) (name : string) (host_vars : pyval)
  : result pyval :=
  meta ← py_getitem inventory "_meta";
  hostvars ← py_getitem meta "hostvars";
  hostvars ← py_setitem hostvars name host_vars;
  meta ← py_setitem meta "hostvars" hostvars;
  py_setitem inventory "_meta" meta.

(** [record.get("networks", {}).get('0/ip')] *)
Definition first_ip (metrics : VM_guest_metrics.record) : pyval :=
  match default ∅ (VM_guest_metrics.networks metrics) !! "0/ip" with
  | Some ip => PStr ip
  | None => PNone
  end.

(** The body of [for i in record['VIFs']]. *)
Definition vif_body (record : VM.record) (i : string) (inventory : pyval) : M pyval :=
  vif ← xenapi_VIF_get_record i;
  let net_ref := VIF.network vif in
  network ← xenapi_network_get_record net_ref;
  inventory ← lift (setdefault_append inventory (network.name_label network)
                      (PStr (VM.name_label record)));
  metrics ← xenapi_VM_guest_metrics_get_record (VM.guest_metrics record);
  let ip := first_ip metrics in
  let host_vars := PDict [("ansible_host", ip)] in
  lift (set_hostvars inventory (VM.name_label record) host_vars).

(** The body of [for vm in all_vms]. *)
Definition vm_body (vm : string) (inventory : pyval) : M pyval :=
  record ← xenapi_VM_get_record vm;
  if negb (VM.is_control_domain record) && negb (VM.is_a_template record)
  then for_each (VM.VIFs record) (vif_body record) inventory
  else mret inventory.

Definition list_inventory : M pyval :=
  try_except
    (all_vms ← xenapi_VM_get_all;
     let inventory := PDict [("_meta", PDict [("hostvars", PDict [])])] in
     for_each all_vms vm_body inventory)
    (fun e =>
       match e with
       | Failure details => Some (print ("[Error] : " +:+ details);; exit 1)
       | _ => None
       end).

(** [with open(cache_path, 'w') as fp: dump(data, fp)] *)
Definition save (cache_path : option string) (data : pyval) : M unit :=
  fp ← open_w cache_path;
  dump data fp.

Definition list_and_save (cache_path : option string) : M pyval :=
  data ← list_inventory;
  save cache_path data;;
  mret data.

(** [os.path.isfile(cache_path) and
     time() - os.stat(cache_path).st_mtime < cache_ttl] *)
Definition cache_is_fresh (cache_path : option string) (cache_ttl : Z) : M bool :=
  is_file ← os_path_isfile cache_path;
  if is_file : bool then
    now ← time;
    st ← os_stat cache_path;
    mret (now - st_mtime st <? cache_ttl)
  else mret false.

(** [with open(cache_path) as f: data = load(f); return data] *)
Definition read_cache (cache_path : option string) : M pyval :=
  f ← open_r cache_path;
  load f.

(** Python truth of [cache_path] *)
Definition truthy (cache_path : option string) : bool :=
  match cache_path with
  | None => false
  | Some p => negb (String.eqb p EmptyString)
  end.

Definition format_path (cache_path : option string) : string :=
  match cache_path with
  | None => "None"
  | Some p => p
  end.

(** The [else] branch of the lookup, before the fetch: the parent directory
    of the cache path is created when it does not exist. *)
Definition ensure_parent (cache_path : option string) : M unit :=
  parent ← os_path_dirname cache_path;
  parent_exists ← os_path_exists parent;
  if negb parent_exists then
    try_except
      (if truthy cache_path then os_makedirs parent
       else raise (OSError None ("cache_path not defined: " +:+ format_path cache_path)))
      (fun exc =>
         match exc with
         | OSError errno detail =>
             if bool_decide (errno = Some EACCES)
             then Some (print (str_OSError errno detail);; exit 1)
             else if negb (bool_decide (errno = Some EEXIST))
             then Some (raise exc)
             else Some (mret tt)
         | _ => None
         end)
  else mret tt.

Definition cached_inventory (cache_path : option string) (cache_ttl : Z)
    (refresh : bool) : M pyval :=
  if refresh then list_and_save cache_path
  else
    fresh ← cache_is_fresh cache_path cache_ttl;
    if fresh : bool then
      try_except (read_cache cache_path)
        (fun e =>
           match e with
           | ValueError | OSError _ _ => Some (list_and_save cache_path)
           | _ => None
           end)
    else
      ensure_parent cache_path;;
      list_and_save cache_path.

End methods.
End XenServer.

(** ** Vocabulary of the properties *)

Module Props.
Import Runtime PyOps XenServer.

(** *** Documents *)

Definition is_str (v : pyval) : bool :=
  match v with
  | PStr _ => true
  | _ => false
  end.

(** An address, or null. *)
Definition is_ip (v : pyval) : bool :=
  match v with
  | PNone | PStr _ => true
  | _ => false
  end.

(** The host variables of one VM. *)
Definition is_host_vars (v : pyval) : bool :=
  match v with
  | PDict h => bool_decide (NoDup (keys h)) && forallb (fun kv => is_ip (snd kv)) h
  | _ => false
  end.

(** The [_meta] entry: [{"hostvars": {name: host variables}}]. *)
Definition is_meta (v : pyval) : bool :=
  match v with
  | PDict [(k, PDict hv)] =>
      String.eqb k "hostvars" && bool_decide (NoDup (keys hv))
      && forallb (fun kv => is_host_vars (snd kv)) hv
  | _ => false
  end.

(** A group: a sequence of VM name labels. *)
Definition is_group (v : pyval) : bool :=
  match v with
  | PList l => forallb is_str l
  | _ => false
  end.

(** The InventoryDocument of the specification: a mapping from group names
    to sequences of VM name labels, plus the reserved [_meta] entry. *)
Definition inventory_document (v : pyval) : bool :=
  match v with
  | PDict d =>
      bool_decide (NoDup (keys d))
      && existsb (fun kv => String.eqb (fst kv) "_meta") d
      && forallb (fun kv => if String.eqb (fst kv) "_meta" then is_meta (snd kv)
                            else is_group (snd kv)) d
  | _ => false
  end.

(** [doc[group]] as a list of members, [doc["_meta"]["hostvars"]] *)
Definition group_of (doc : pyval) (group : string) : option (list pyval) :=
  match py_get doc group with
  | Some (PList l) => Some l
  | _ => None
  end.

Definition hostvars_of (doc : pyval) : option (items pyval) :=
  match py_get doc "_meta" ≫= (fun meta => py_get meta "hostvars") with
  | Some (PDict hv) => Some hv
  | _ => None
  end.

(** *** The inventory under construction, typed *)

Definition host_entry (ip : pyval) : pyval := PDict [("ansible_host", ip)].

Definition group_entry (members : list string) : pyval := PList (map PStr members).

Definition on_values {A B} (f : A -> B) (d : items A) : items B :=
  map (fun kv => (fst kv, f (snd kv))) d.

Record state : Type := {
  groups : items (list string);
  hosts : items pyval
}.

Definition document (st : state) : pyval :=
  PDict (("_meta", PDict [("hostvars", PDict (on_values host_entry (hosts st)))])
           :: on_values group_entry (groups st)).

Definition initial : state := {| groups := []; hosts := [] |}.

Definition add_member (gs : items (list string)) (group name : string)
  : items (list string) :=
  match dict_get gs group with
  | Some members => dict_set gs group (members ++ [name])
  | None => gs ++ [(group, [name])]
  end.

(** One pass through the body of the inner loop: the group joined, the
    name label and the address recorded. *)
Record event : Type := {
  ev_group : string;
  ev_name : string;
  ev_ip : pyval
}.

Definition apply_event (st : state) (e : event) : state :=
  {| groups := add_member (groups st) (ev_group e) (ev_name e);
     hosts := dict_set (hosts st) (ev_name e) (ev_ip e) |}.

Definition eligible (record : VM.record) : bool :=
  negb (VM.is_control_domain record) && negb (VM.is_a_template record).

Definition vif_event (session : Session) (record : VM.record) (i : string)
  : option event :=
  match VIF_get_record session i with
  | Reply vif =>
      match network_get_record session (VIF.network vif) with
      | Reply net =>
          match VM_guest_metrics_get_record session (VM.guest_metrics record) with
          | Reply metrics =>
              Some {| ev_group := network.name_label net;
                      ev_name := VM.name_label record;
                      ev_ip := first_ip metrics |}
          | Fault _ => None
          end
      | Fault _ => None
      end
  | Fault _ => None
  end.

Definition vif_step (session : Session) (record : VM.record) (i : string)
    (st : state) : option state :=
  e ← vif_event session record i;
  if String.eqb (ev_group e) "_meta" then None else Some (apply_event st e).

Fixpoint run_steps {X S} (step : X -> S -> option S) (xs : list X) (st : S)
  : option S :=
  match xs with
  | [] => Some st
  | x :: xs' => st' ← step x st; run_steps step xs' st'
  end.

Definition vm_step (session : Session) (vm : string) (st : state) : option state :=
  match VM_get_record session vm with
  | Reply record =>
      if eligible record then run_steps (vif_step session record) (VM.VIFs record) st
      else Some st
  | Fault _ => None
  end.

Definition outcome (session : Session) : option state :=
  match VM_get_all session with
  | Reply all_vms => run_steps (vm_step session) all_vms initial
  | Fault _ => None
  end.

Definition well_formed (st : state) : Prop :=
  NoDup (keys (groups st)) /\ ("_meta" ∉ keys (groups st))
  /\ NoDup (keys (hosts st)) /\ Forall (fun kv => is_ip (snd kv) = true) (hosts st).

Definition replay (evs : list event) (st : state) : state := fold_left apply_event evs st.

(** An event outside the reserved entry. *)
Definition ordinary (e : event) : Prop := ev_group e <> "_meta".

(** The events of one VM. *)
Definition vm_events (session : Session) (vm : string) (evs : list event) : Prop :=
  exists record,
    VM_get_record session vm = Reply record
    /\ if eligible record
       then Forall2 (fun i e => vif_event session record i = Some e) (VM.VIFs record) evs
       else evs = [].

(** *** Worlds *)

(** The live fetches a world has seen: one [VM.get_all] opens each. *)
Definition fetches (w : world) : nat := length (filter (fun c => is_listing c = true) (rpc_log w)).

(** [w'] is [w] after record fetches only. *)
Definition fetched_records (w w' : world) : Prop :=
  exists l, w' = log_calls l w /\ Forall (fun c => is_listing c = false) l.

Definition same_disk (w w' : world) : Prop :=
  fs w' = fs w /\ readonly w' = readonly w /\ clock w' = clock w.

(** What the loops of [list_inventory] can raise. *)
Definition build_error (e : exn) : Prop :=
  e = AttributeError \/ exists details, e = Failure details.

(** A run of a loop of [list_inventory] on a typed inventory: record fetches
    only, and the typed outcome. *)
Definition builds (m : M pyval) (w : world) (o : option state) : Prop :=
  exists l r,
    m w = (r, log_calls l w)
    /\ Forall (fun c => is_listing c = false) l
    /\ match o with
       | Some st' => r = Ok (document st')
       | None => exists e, r = Raise e /\ build_error e
       end.




(** Every record fetch of a listing replies, and no network is named like
    the reserved entry. *)
Definition answers (session : Session) : bool :=
  match VM_get_all session with
  | Reply all_vms =>
      forallb (fun vm =>
        match VM_get_record session vm with
        | Reply record =>
            if eligible record then
              forallb (fun i =>
                match VIF_get_record session i with
                | Reply vif =>
                    match network_get_record session (VIF.network vif) with
                    | Reply net =>
                        negb (String.eqb (network.name_label net) "_meta")
                        && match VM_guest_metrics_get_record session
                                   (VM.guest_metrics record) with
                           | Reply _ => true
                           | Fault _ => false
                           end
                    | Fault _ => false
                    end
                | Fault _ => false
                end) (VM.VIFs record)
            else true
        | Fault _ => false
        end) all_vms
  | Fault _ => false
  end.

(** The guest metrics report no first address. *)
Definition lacks_first_ip (metrics : VM_guest_metrics.record) : Prop :=
  default ∅ (VM_guest_metrics.networks metrics) !! "0/ip" = None.

End Props.

(** ** A sample pool *)

Module Scenario.
Import Runtime PyOps XenServer Props.

(** VM A is eligible, has one VIF on network [prod] and reports the address
    10.0.0.5; B is the control domain; C is eligible, has VIFs on [prod] and
    [backup] and reports no address; T is a template; D is eligible and has
    no VIF. *)
Definition vm_a : VM.record :=
  {| VM.name_label := "A"; VM.is_control_domain := false; VM.is_a_template := false;
     VM.VIFs := ["vif-a"]; VM.guest_metrics := "gm-a" |}.
Definition vm_b : VM.record :=
  {| VM.name_label := "B"; VM.is_control_domain := true; VM.is_a_template := false;
     VM.VIFs := ["vif-b"]; VM.guest_metrics := "gm-b" |}.
Definition vm_c : VM.record :=
  {| VM.name_label := "C"; VM.is_control_domain := false; VM.is_a_template := false;
     VM.VIFs := ["vif-c1"; "vif-c2"]; VM.guest_metrics := "gm-c" |}.
Definition vm_t : VM.record :=
  {| VM.name_label := "T"; VM.is_control_domain := false; VM.is_a_template := true;
     VM.VIFs := []; VM.guest_metrics := "OpaqueRef:NULL" |}.
Definition vm_d : VM.record :=
  {| VM.name_label := "D"; VM.is_control_domain := false; VM.is_a_template := false;
     VM.VIFs := []; VM.guest_metrics := "OpaqueRef:NULL" |}.

Definition listing : list string := ["vm-a"; "vm-b"; "vm-c"; "vm-t"; "vm-d"].

Definition pool : Session :=
  {| VM_get_all := Reply listing;
     VM_get_record := fun ref =>
       if String.eqb ref "vm-a" then Reply vm_a
       else if String.eqb ref "vm-b" then Reply vm_b
       else if String.eqb ref "vm-c" then Reply vm_c
       else if String.eqb ref "vm-t" then Reply vm_t
       else if String.eqb ref "vm-d" then Reply vm_d
       else Fault "HANDLE_INVALID";
     VIF_get_record := fun ref =>
       if String.eqb ref "vif-a" then Reply {| VIF.network := "net-prod" |}
       else if String.eqb ref "vif-c1" then Reply {| VIF.network := "net-prod" |}
       else if String.eqb ref "vif-c2" then Reply {| VIF.network := "net-backup" |}
       else Fault "HANDLE_INVALID";
     network_get_record := fun ref =>
       if String.eqb ref "net-prod" then Reply {| network.name_label := "prod" |}
       else if String.eqb ref "net-backup" then Reply {| network.name_label := "backup" |}
       else Fault "HANDLE_INVALID";
     VM_guest_metrics_get_record := fun ref =>
       if String.eqb ref "gm-a"
       then Reply {| VM_guest_metrics.networks := Some {[ "0/ip" := "10.0.0.5" ]} |}
       else if String.eqb ref "gm-c"
       then Reply {| VM_guest_metrics.networks := Some ∅ |}
       else Fault "HANDLE_INVALID" |}.

(** What a build over the pool returns, and the calls it makes. *)
Definition inventory : pyval :=
  PDict [("_meta",
          PDict [("hostvars",
                  PDict [("A", PDict [("ansible_host", PStr "10.0.0.5")]);
                         ("C", PDict [("ansible_host", PNone)])])]);
         ("prod", PList [PStr "A"; PStr "C"]);
         ("backup", PList [PStr "C"])].

Definition calls : list call :=
  [CallVMGetAll;
   CallVMGetRecord "vm-a"; CallVIFGetRecord "vif-a"; CallNetworkGetRecord "net-prod";
   CallGuestMetricsGetRecord "gm-a";
   CallVMGetRecord "vm-b";
   CallVMGetRecord "vm-c"; CallVIFGetRecord "vif-c1"; CallNetworkGetRecord "net-prod";
   CallGuestMetricsGetRecord "gm-c"; CallVIFGetRecord "vif-c2";
   CallNetworkGetRecord "net-backup"; CallGuestMetricsGetRecord "gm-c";
   CallVMGetRecord "vm-t"; CallVMGetRecord "vm-d"].

(** Texts of cache files that are no JSON document: an error page, and a
    thousand opening brackets. *)
Definition garbage : string := "<html>502 Bad Gateway</html>".

Definition brackets : string := string_of_list_ascii (repeat "["%char 1000).

(** One character, U+1F600, as a name label: held as one code point, and
    held as its two surrogates U+D83D and U+DE00. *)
Definition face : string :=
  String "240" (String "159" (String "152" (String "128" EmptyString))).


(** The inventory of one VM without an address on the network [prod]. *)
Definition inventory_of (name : string) : pyval :=
  PDict [("_meta", PDict [("hostvars", PDict [(name, PDict [("ansible_host", PNone)])])]);
         ("prod", PList [PStr name])].

(** What [json.load] of Python 3.11, called at the default recursion limit,
    answers on the texts the sample disks hold: the document for the text
    of a document (the text of a surrogate pair is read as one character),
    [RecursionError] for the brackets, [ValueError] for the error page.  No
    sample disk holds another text. *)
Definition library (text : string) : Json.decoded :=
  if String.eqb text (Json.dumps inventory) then Json.Parsed inventory
  else if String.eqb text (Json.dumps (inventory_of face)) then Json.Parsed (inventory_of face)
  else if String.eqb text brackets then Json.TooDeep
  else Json.Malformed.

Definition on_disk (files : gmap string node) (now : Z) : world :=
  {| fs := files; readonly := ∅; clock := now; rpc_log := []; stdout := [];
     json_load := library |}.

(** A disk with [/] and [/tmp] only, at time 100. *)
Definition bare : world :=
  on_disk {[ "/" := Directory 0; "/tmp" := Directory 0 ]} 100.

Definition cache_file : string := "/tmp/inventory.json".

(** The same with a cache file written at time 90 holding an inventory. *)
Definition warm : world :=
  on_disk {[ "/" := Directory 0; "/tmp" := Directory 0;
             cache_file := RegularFile 90 (Json.dumps inventory) ]} 100.

(** The same with a cache file written at time 90 that is no JSON text. *)
Definition corrupted : world :=
  on_disk {[ "/" := Directory 0; "/tmp" := Directory 0;
             cache_file := RegularFile 90 garbage ]} 100.


(** The bare disk after a lookup, and after the document is saved. *)
Definition fetched : world :=
  snd (cached_inventory pool (Some cache_file) 3600 false bare).



(** A cache path whose parent directory does not exist yet. *)
Definition new_cache_file : string := "/var/cache/xen/inventory.json".

End Scenario.

(** Case analysis on a reference of the sample listing. *)
Ltac pool_record Hin Hr :=
  repeat (destruct Hin as [<-|Hin];
          [vm_compute in Hr; injection Hr as <-|]);
  [..|destruct Hin].

(** ** What a build is expected to visit, call and record *)

Module Expected.
Import Runtime PyOps XenServer Props.

(** [f] on every element, when it fails on none. *)
Fixpoint collect {A B} (f : A -> option B) (l : list A) : option (list B) :=
  match l with
  | [] => Some []
  | x :: l' => y ← f x; ys ← collect f l'; Some (y :: ys)
  end.

(** The passes through the inner loop that one VM causes, and the passes of
    the whole listing, in the order of the loops. *)
Definition vm_visit (session : Session) (vm : string) : option (list event) :=
  match VM_get_record session vm with
  | Reply record =>
      if eligible record then collect (vif_event session record) (VM.VIFs record)
      else Some []
  | Fault _ => None
  end.

Definition visits (session : Session) : option (list event) :=
  match VM_get_all session with
  | Reply all_vms =>
      match collect (vm_visit session) all_vms with
      | Some evss => Some (concat evss)
      | None => None
      end
  | Fault _ => None
  end.

(** The name labels the passes append to a group, in order, and the address
    the last pass of a name label leaves. *)
Definition members_of (evs : list event) (group : string) : list string :=
  map ev_name (List.filter (fun e => String.eqb (ev_group e) group) evs).

Definition address_of (evs : list event) (name : string) : option pyval :=
  last (map ev_ip (List.filter (fun e => String.eqb (ev_name e) name) evs)).

(** The calls of a pass through the inner loop, of one VM and of a listing. *)
Definition vif_calls (session : Session) (record : VM.record) (i : string)
  : list call :=
  CallVIFGetRecord i
  :: match VIF_get_record session i with
     | Reply vif =>
         [CallNetworkGetRecord (VIF.network vif);
          CallGuestMetricsGetRecord (VM.guest_metrics record)]
     | Fault _ => []
     end.

Definition vm_calls (session : Session) (vm : string) : list call :=
  CallVMGetRecord vm
  :: match VM_get_record session vm with
     | Reply record =>
         if eligible record
         then flat_map (vif_calls session record) (VM.VIFs record)
         else []
     | Fault _ => []
     end.

Definition listing_calls (session : Session) : list call :=
  CallVMGetAll
  :: match VM_get_all session with
     | Reply all_vms => flat_map (vm_calls session) all_vms
     | Fault _ => []
     end.

(** Every record fetch of a listing replies (networks may bear any name). *)
Definition replies (session : Session) : bool :=
  match VM_get_all session with
  | Reply all_vms =>
      forallb (fun vm =>
        match VM_get_record session vm with
        | Reply record =>
            if eligible record then
              forallb (fun i =>
                match VIF_get_record session i with
                | Reply vif =>
                    match network_get_record session (VIF.network vif) with
                    | Reply _ =>
                        match VM_guest_metrics_get_record session
                                (VM.guest_metrics record) with
                        | Reply _ => true
                        | Fault _ => false
                        end
                    | Fault _ => false
                    end
                | Fault _ => false
                end) (VM.VIFs record)
            else true
        | Fault _ => false
        end) all_vms
  | Fault _ => false
  end.

(** A run of a loop when every fetch replies: it completes, or it stops at
    the [append] on the reserved entry. *)
Definition calm (m : M pyval) (w : world) (o : option state) : Prop :=
  exists l r,
    m w = (r, log_calls l w)
    /\ match o with
       | Some st' => r = Ok (document st')
       | None => r = Raise AttributeError
       end.

(** A run of a loop that completes, with the calls it makes. *)
Definition completes (m : M pyval) (w : world) (st' : state) (l : list call) : Prop :=
  m w = (Ok (document st'), log_calls l w).

End Expected.

(** ** [XenServer.__init__] and [main]

    [get_args()] and [parse_config()] are the collaborators of [main]: what
    they return is given.  The process adds to the world of the methods the
    terminal (the password prompt), the logins asked of the server and the
    functions registered with [atexit]. *)

Module Main.
Import Runtime PyOps XenServer.

(** The [argparse.Namespace] of [get_args]; [list_vms] is [args.list]. *)
Record Namespace : Type := {
  hostname : option string;
  username : option string;
  password : option string;
  guest : option string;
  host : option string;
  reload_cache : bool;
  list_vms : bool
}.

(** The tuple of [parse_config]. *)
Record Config : Type := {
  cache_path : string;
  cache_ttl : Z;
  xen_host : string;
  xen_user : string;
  xen_pass : string
}.

(** What the process meets: the text [getpass.getpass()] returns or the
    exception it raises, and the server behind [XenAPI.Session(url)] and
    [login_with_password], where a fault stands for any [Exception] of the
    two, with its text. *)
Record Surroundings : Type := {
  typed : result string;
  server : string -> option string -> option string -> reply Session
}.

Record process : Type := {
  os : world;
  prompts : nat;
  logins : list (string * option string * option string);
  (** the sessions whose [logout] is registered, by URL *)
  atexit : list string
}.

Definition P (A : Type) : Type := process -> result A * process.

#[global] Instance P_ret : MRet P := fun A a ps => (Ok a, ps).
#[global] Instance P_bind : MBind P := fun A B f m ps =>
  match m ps with
  | (Ok a, ps') => f a ps'
  | (Raise e, ps') => (Raise e, ps')
  end.

(** A method or a builtin of the script, run by the process. *)
Definition run {A} (m : M A) : P A := fun ps =>
  let '(r, w') := m (os ps) in
  (r, {| os := w'; prompts := prompts ps; logins := logins ps; atexit := atexit ps |}).

Definition getpass (env : Surroundings) : P string := fun ps =>
  (typed env,
   {| os := os ps; prompts := S (prompts ps); logins := logins ps; atexit := atexit ps |}).

(** [XenAPI.Session(url)] and [session.xenapi.login_with_password] *)
Definition login (env : Surroundings) (url : string) (user pass : option string)
  : P Session := fun ps =>
  (match server env url user pass with
   | Reply session => Ok session
   | Fault error => Raise (Failure error)
   end,
   {| os := os ps; prompts := prompts ps;
      logins := logins ps ++ [(url, user, pass)]; atexit := atexit ps |}).

(** [atexit.register(session.xenapi.session.logout)] *)
Definition atexit_register (url : string) : P unit := fun ps =>
  (Ok tt,
   {| os := os ps; prompts := prompts ps; logins := logins ps;
      atexit := atexit ps ++ [url] |}).

Definition try_except {A} (body : P A) (handler : exn -> option (P A)) : P A :=
  fun ps =>
    match body ps with
    | (Ok a, ps') => (Ok a, ps')
    | (Raise e, ps') =>
        match handler e with
        | Some h => h ps'
        | None => (Raise e, ps')
        end
    end.

(** [XenServer.__init__]: the session of the new object. *)
Definition init (env : Surroundings) (xen_hostname xen_username xen_password : option string)
  : P Session :=
  let url := "http://" +:+ format_path xen_hostname in
  session ← try_except (login env url xen_username xen_password)
    (fun e =>
       match e with
       | Failure error =>
           Some (run (print ("Could not connect to XenServer: " +:+ error));;
                 run (exit 1))
       | _ => None
       end);
  atexit_register url;;
  mret session.

(** [setattr(args, name, value)] *)
Definition set_password (args : Namespace) (v : string) : Namespace :=
  {| hostname := hostname args; username := username args; password := Some v;
     guest := guest args; host := host args;
     reload_cache := reload_cache args; list_vms := list_vms args |}.

Definition set_username (args : Namespace) (v : string) : Namespace :=
  {| hostname := hostname args; username := Some v; password := password args;
     guest := guest args; host := host args;
     reload_cache := reload_cache args; list_vms := list_vms args |}.

Definition set_hostname (args : Namespace) (v : string) : Namespace :=
  {| hostname := Some v; username := username args; password := password args;
     guest := guest args; host := host args;
     reload_cache := reload_cache args; list_vms := list_vms args |}.

Definition main (env : Surroundings) (args : Namespace) (config : Config) : P unit :=
  args ← (if negb (truthy (password args)) then
            xen_pass ← (if negb (truthy (Some (xen_pass config))) then getpass env
                        else mret (xen_pass config));
            mret (set_password args xen_pass)
          else mret args);
  let args := if negb (truthy (username args)) then set_username args (xen_user config)
              else args in
  let args := if negb (truthy (hostname args)) then set_hostname args (xen_host config)
              else args in
  if truthy (host args) || truthy (guest args) then
    run (print "{}");;
    run (exit 0)
  else if list_vms args || reload_cache args then
    x ← init env (hostname args) (username args) (password args);
    data ← run (cached_inventory x (Some (cache_path config)) (cache_ttl config)
                  (reload_cache args));
    run (print (Json.dumps data));;
    run (exit 0)
  else mret tt.

(** The value the overrides leave: the one of the command line when it is
    not empty, else the configured one. *)
Definition or_configured (given : option string) (configured : string) : option string :=
  if truthy given then given else Some configured.

(** The password after the overrides: the one of the command line, else the
    configured one, else the one typed at the prompt. *)
Definition secret (env : Surroundings) (args : Namespace) (config : Config)
  : result string :=
  let fallback :=
    if String.eqb (xen_pass config) EmptyString then typed env
    else Ok (xen_pass config) in
  match password args with
  | Some p => if String.eqb p EmptyString then fallback else Ok p
  | None => fallback
  end.

(** Whether the prompt is shown. *)
Definition prompted (args : Namespace) (config : Config) : bool :=
  negb (truthy (password args)) && String.eqb (xen_pass config) EmptyString.

Definition ask (asked : bool) (ps : process) : process :=
  {| os := os ps; prompts := if asked then S (prompts ps) else prompts ps;
     logins := logins ps; atexit := atexit ps |}.

Definition at_url (hostname : option string) : string :=
  "http://" +:+ format_path hostname.

(** The part of [main] below the overrides, with the values they leave. *)
Definition dispatch (env : Surroundings) (args : Namespace) (config : Config)
    (pw : string) : P unit :=
  let host_name := or_configured (hostname args) (xen_host config) in
  let user := or_configured (username args) (xen_user config) in
  if truthy (host args) || truthy (guest args) then
    run (print "{}");; run (exit 0)
  else if list_vms args || reload_cache args then
    x ← init env host_name user (Some pw);
    data ← run (cached_inventory x (Some (cache_path config)) (cache_ttl config)
                  (reload_cache args));
    run (print (Json.dumps data));; run (exit 0)
  else mret tt.

(** A step of the script that shows no prompt. *)
Definition keeps_terminal {A} (m : P A) : Prop :=
  forall ps r ps', m ps = (r, ps') -> prompts ps' = prompts ps.

End Main.

(** ** More sample data: failing servers, other disks, command lines *)

Module Cases.
Import Runtime PyOps XenServer Props Scenario Main.

(** A server that refuses the listing. *)
Definition unreachable : Session :=
  {| VM_get_all := Fault "SESSION_INVALID";
     VM_get_record := fun _ => Fault "SESSION_INVALID";
     VIF_get_record := fun _ => Fault "SESSION_INVALID";
     network_get_record := fun _ => Fault "SESSION_INVALID";
     VM_guest_metrics_get_record := fun _ => Fault "SESSION_INVALID" |}.

(** The pool with the network [backup] renamed to [_meta]. *)
Definition shadowing : Session :=
  {| VM_get_all := VM_get_all pool;
     VM_get_record := VM_get_record pool;
     VIF_get_record := VIF_get_record pool;
     network_get_record := fun ref =>
       if String.eqb ref "net-backup" then Reply {| network.name_label := "_meta" |}
       else network_get_record pool ref;
     VM_guest_metrics_get_record := VM_guest_metrics_get_record pool |}.

(** The passes of a build over the pool. *)
Definition passes : list event :=
  [{| ev_group := "prod"; ev_name := "A"; ev_ip := PStr "10.0.0.5" |};
   {| ev_group := "prod"; ev_name := "C"; ev_ip := PNone |};
   {| ev_group := "backup"; ev_name := "C"; ev_ip := PNone |}].

(** The warm disk after a forced refresh. *)
Definition reloaded : world := snd (list_and_save pool (Some cache_file) warm).

(** A disk where [/var] may not be written to. *)
Definition locked : world :=
  {| fs := {[ "/" := Directory 0; "/var" := Directory 0 ]};
     readonly := {[ "/var" ]}; clock := 100; rpc_log := []; stdout := [];
     json_load := library |}.

(** A cache path under [/tmp] whose directory is not there yet, and one
    without a directory part. *)
Definition nested_cache_file : string := "/tmp/xen/inventory.json".
Definition bare_cache_file : string := "inventory.json".

(** A cache path whose directory would have to be made in [/var]. *)
Definition guarded_cache_file : string := "/var/xen/inventory.json".

(** The bare disk after a lookup with the nested cache path. *)
Definition nested : world :=
  snd (cached_inventory pool (Some nested_cache_file) 3600 false bare).

(** A terminal where [s3cret] is typed, in front of a server that accepts
    [ansible] with that password at [xen1.example] and serves the pool. *)
Definition console : Surroundings :=
  {| typed := Ok "s3cret";
     server := fun url user pass =>
       if String.eqb url "http://xen1.example"
          && bool_decide (user = Some "ansible")
          && bool_decide (pass = Some "s3cret")
       then Reply pool
       else Fault "Connection refused" |}.

Definition ini : Config :=
  {| cache_path := cache_file; cache_ttl := 3600;
     xen_host := "xen1.example"; xen_user := "root"; xen_pass := EmptyString |}.

(** [-u ansible -l], [-u ansible -r], [-x A -l], [-p hunter2 -l] and no
    argument at all. *)
Definition list_request : Namespace :=
  {| hostname := None; username := Some "ansible"; password := None;
     guest := None; host := None; reload_cache := false; list_vms := true |}.

Definition reload_request : Namespace :=
  {| hostname := None; username := Some "ansible"; password := None;
     guest := None; host := None; reload_cache := true; list_vms := false |}.

Definition host_request : Namespace :=
  {| hostname := None; username := None; password := None;
     guest := None; host := Some "A"; reload_cache := false; list_vms := true |}.

Definition wrong_password : Namespace :=
  {| hostname := None; username := Some "ansible"; password := Some "hunter2";
     guest := None; host := None; reload_cache := false; list_vms := true |}.

Definition no_request : Namespace :=
  {| hostname := None; username := None; password := None;
     guest := None; host := None; reload_cache := false; list_vms := false |}.

(** A process that starts on a disk. *)
Definition boot (w : world) : process :=
  {| os := w; prompts := 0; logins := []; atexit := [] |}.

End Cases.

(** * Properties *)

Import Json Runtime PyOps XenServer Props Scenario.

(** ** Dicts *)

Section dicts.
Context {A : Type}.
Implicit Types (d : items A) (k : string) (v : A).

Lemma dict_get_None d k : dict_get d k = None <-> k ∉ keys d.
Proof.
  induction d as [|[k' v'] d IH]; cbn [dict_get keys map fst].
  - split; [intros _; apply not_elem_of_nil | reflexivity].
  - rewrite not_elem_of_cons. destruct (String.eqb_spec k' k) as [->|Hne].
    + split; [discriminate | intros [H _]; congruence].
    + rewrite IH. unfold keys. intuition congruence.
Qed.

Lemma dict_get_Some_in d k v : dict_get d k = Some v -> In (k, v) d.
Proof.
  induction d as [|[k' v'] d IH]; cbn [dict_get]; [discriminate|].
  destruct (String.eqb_spec k' k) as [->|Hne].
  - intros [= ->]. left. reflexivity.
  - intros H. right. exact (IH H).
Qed.

Lemma dict_get_is_Some d k : is_Some (dict_get d k) <-> k ∈ keys d.
Proof.
  destruct (dict_get d k) eqn:E.
  - split; [intros _ | eauto].
    destruct (decide (k ∈ keys d)) as [H|H]; [exact H|].
    apply dict_get_None in H. congruence.
  - apply dict_get_None in E. split; [intros [? [=]] | intros H; contradiction].
Qed.

Lemma dict_get_set_eq d k v : dict_get (dict_set d k v) k = Some v.
Proof.
  induction d as [|[k' v'] d IH]; cbn [dict_set dict_get].
  - rewrite String.eqb_refl. reflexivity.
  - destruct (String.eqb_spec k' k) as [->|Hne]; cbn [dict_get].
    + rewrite String.eqb_refl. reflexivity.
    + destruct (String.eqb_spec k' k); [congruence | exact IH].
Qed.

Lemma dict_get_set_ne d k k' v : k <> k' -> dict_get (dict_set d k v) k' = dict_get d k'.
Proof.
  intros Hne. induction d as [|[k0 v0] d IH]; cbn [dict_set dict_get].
  - destruct (String.eqb_spec k k'); [congruence | reflexivity].
  - destruct (String.eqb_spec k0 k) as [->|H0]; cbn [dict_get].
    + destruct (String.eqb_spec k k'); [congruence | reflexivity].
    + rewrite IH. reflexivity.
Qed.

Lemma keys_dict_set_in d k v : k ∈ keys d -> keys (dict_set d k v) = keys d.
Proof.
  induction d as [|[k' v'] d IH]; cbn [dict_set keys map fst].
  - intros H. apply elem_of_nil in H. contradiction.
  - intros H. destruct (String.eqb_spec k' k) as [->|Hne]; [reflexivity|].
    cbn [map fst]. f_equal. apply IH.
    apply elem_of_cons in H as [H|H]; [congruence | exact H].
Qed.

Lemma dict_set_fresh d k v : k ∉ keys d -> dict_set d k v = d ++ [(k, v)].
Proof.
  induction d as [|[k' v'] d IH]; intros Hk; [reflexivity|].
  cbn [keys map fst] in Hk. apply not_elem_of_cons in Hk as [Hne Hk].
  cbn [dict_set]. destruct (String.eqb_spec k' k) as [->|_]; [congruence|].
  rewrite IH by exact Hk. reflexivity.
Qed.

Lemma keys_app d d' : keys (d ++ d') = keys d ++ keys d'.
Proof. unfold keys. apply map_app. Qed.

Lemma dict_set_app_fresh d d' k v :
  k ∉ keys d -> dict_set (d ++ d') k v = d ++ dict_set d' k v.
Proof.
  induction d as [|[k' v'] d IH]; intros Hk; [reflexivity|].
  cbn [keys map fst] in Hk. apply not_elem_of_cons in Hk as [Hne Hk].
  cbn [app dict_set]. destruct (String.eqb_spec k' k) as [->|_]; [congruence|].
  rewrite IH by exact Hk. reflexivity.
Qed.

Lemma elem_of_keys_dict_set d k k' v :
  k' ∈ keys (dict_set d k v) <-> k' = k \/ k' ∈ keys d.
Proof.
  destruct (decide (k ∈ keys d)) as [H|H].
  - rewrite keys_dict_set_in by exact H. split; [auto | intros [->|?]; assumption].
  - rewrite dict_set_fresh, keys_app by exact H. cbn [keys map fst].
    rewrite elem_of_app, list_elem_of_singleton. tauto.
Qed.

Lemma NoDup_keys_dict_set d k v : NoDup (keys d) -> NoDup (keys (dict_set d k v)).
Proof.
  intros Hnd. destruct (decide (k ∈ keys d)) as [H|H].
  - rewrite keys_dict_set_in by exact H. exact Hnd.
  - rewrite dict_set_fresh, keys_app by exact H. cbn [keys map fst].
    apply NoDup_app. split; [exact Hnd|]. split; [|apply NoDup_singleton].
    intros x Hx Hx'. apply list_elem_of_singleton in Hx'. congruence.
Qed.

Lemma dict_set_values d k v (P : A -> Prop) :
  P v -> Forall (fun kv => P (snd kv)) d -> Forall (fun kv => P (snd kv)) (dict_set d k v).
Proof.
  intros Hv. induction 1 as [|[k' v'] d Hx Hd IH]; cbn [dict_set].
  - constructor; [exact Hv | constructor].
  - destruct (String.eqb k' k); constructor; assumption.
Qed.

End dicts.

Lemma keys_on_values {A B} (f : A -> B) (d : items A) : keys (on_values f d) = keys d.
Proof. unfold keys, on_values. rewrite map_map. reflexivity. Qed.

Lemma dict_get_on_values {A B} (f : A -> B) (d : items A) (k : string) :
  dict_get (on_values f d) k = f <$> dict_get d k.
Proof.
  induction d as [|[k' v'] d IH]; [reflexivity|].
  cbn [on_values map dict_get fst snd]. destruct (String.eqb k' k); [reflexivity | exact IH].
Qed.

Lemma dict_set_on_values {A B} (f : A -> B) (d : items A) (k : string) (v : A) :
  dict_set (on_values f d) k (f v) = on_values f (dict_set d k v).
Proof.
  induction d as [|[k' v'] d IH]; [reflexivity|].
  cbn [on_values map dict_set fst snd].
  destruct (String.eqb k' k); cbn [map fst snd]; [reflexivity|].
  f_equal. exact IH.
Qed.

Lemma on_values_app {A B} (f : A -> B) (d d' : items A) :
  on_values f (d ++ d') = on_values f d ++ on_values f d'.
Proof. apply map_app. Qed.

(** ** The loop body on a typed inventory *)

Lemma setdefault_append_document (st : state) (g n : string) :
  setdefault_append (document st) g (PStr n)
  = if String.eqb g "_meta" then Raise AttributeError
    else Ok (document {| groups := add_member (groups st) g n; hosts := hosts st |}).
Proof.
  unfold setdefault_append, document, py_setdefault. cbn [dict_get groups hosts].
  rewrite (String.eqb_sym g). destruct (String.eqb "_meta" g) eqn:Hg; [reflexivity|].
  rewrite dict_get_on_values. unfold add_member.
  destruct (dict_get (groups st) g) as [l|] eqn:E;
    cbn [fmap option_fmap option_map mbind result_bind py_append py_setitem dict_set app].
  - rewrite Hg. unfold group_entry at 1. rewrite <- dict_set_on_values.
    unfold group_entry at 3. rewrite map_app. reflexivity.
  - rewrite Hg.
    rewrite dict_set_app_fresh by (rewrite keys_on_values; apply dict_get_None; exact E).
    cbn [dict_set]. rewrite String.eqb_refl, on_values_app. reflexivity.
Qed.

Lemma set_hostvars_document (st : state) (n : string) (ip : pyval) :
  set_hostvars (document st) n (host_entry ip)
  = Ok (document {| groups := groups st; hosts := dict_set (hosts st) n ip |}).
Proof.
  unfold set_hostvars, document.
  change (py_getitem (PDict (("_meta", ?m) :: ?r)) "_meta") with (Ok (A:=pyval) m).
  cbn [mbind result_bind].
  change (py_getitem (PDict [("hostvars", ?m)]) "hostvars") with (Ok (A:=pyval) m).
  cbn [mbind result_bind py_setitem hosts groups].
  change (dict_set [("hostvars", ?m)] "hostvars" ?x) with [("hostvars", x)].
  change (dict_set (("_meta", ?m) :: ?r) "_meta" ?x) with (("_meta", x) :: r).
  unfold host_entry at 1. rewrite dict_set_on_values. reflexivity.
Qed.


(** ** Runs of [list_inventory] *)

Lemma log_calls_nil (w : world) : log_calls [] w = w.
Proof. destruct w. unfold log_calls. cbn. rewrite app_nil_r. reflexivity. Qed.

Lemma log_calls_app (l1 l2 : list call) (w : world) :
  log_calls l2 (log_calls l1 w) = log_calls (l1 ++ l2) w.
Proof. unfold log_calls. cbn. rewrite app_assoc. reflexivity. Qed.

Lemma bind_run {A B} (m : M A) (k : A -> M B) (w : world) :
  (m ≫= k) w = match m w with
               | (Ok a, w') => k a w'
               | (Raise e, w') => (Raise e, w')
               end.
Proof. reflexivity. Qed.

Lemma remote_run {A} (c : call) (r : reply A) (w : world) :
  remote c r w = (match r with
                  | Reply a => Ok a
                  | Fault d => Raise (Failure d)
                  end, log_calls [c] w).
Proof. destruct r; reflexivity. Qed.

Section loops.
Context {X : Type} (step : X -> state -> option state) (body : X -> pyval -> M pyval).
Hypothesis body_builds : forall x st w, builds (body x (document st)) w (step x st).

Lemma for_each_builds (xs : list X) :
  forall st w, builds (for_each xs body (document st)) w (run_steps step xs st).
Proof.
  induction xs as [|x xs IH]; intros st w; unfold builds.
  - exists [], (Ok (document st)). rewrite log_calls_nil. repeat split. constructor.
  - destruct (body_builds x st w) as (l & r & Hrun & Hl & Hr).
    cbn [for_each run_steps]. rewrite bind_run, Hrun.
    destruct (step x st) as [st'|]; cbn [mbind option_bind].
    + subst r. destruct (IH st' (log_calls l w)) as (l' & r' & Hrun' & Hl' & Hr').
      exists (l ++ l'), r'. rewrite Hrun', log_calls_app.
      split; [reflexivity|]. split; [apply Forall_app; split; assumption | exact Hr'].
    + destruct Hr as (e & -> & He). exists l, (Raise e). eauto.
Qed.
End loops.

Section session.
Variable s : Session.

Lemma vif_body_builds (record : VM.record) (i : string) (st : state) (w : world) :
  builds (vif_body s record i (document st)) w (vif_step s record i st).
Proof.
  unfold builds, vif_body, vif_step, vif_event.
  unfold xenapi_VIF_get_record, xenapi_network_get_record,
    xenapi_VM_guest_metrics_get_record.
  rewrite bind_run, remote_run.
  destruct (VIF_get_record s i) as [vif|d].
  2:{ eexists _, _. split; [reflexivity|]. split; [repeat constructor|].
      exists (Failure d). split; [reflexivity | right; eauto]. }
  rewrite bind_run, remote_run.
  destruct (network_get_record s (VIF.network vif)) as [net|d].
  2:{ rewrite log_calls_app. eexists _, _. split; [reflexivity|].
      split; [repeat constructor|].
      exists (Failure d). split; [reflexivity | right; eauto]. }
  rewrite bind_run. unfold lift at 1. rewrite setdefault_append_document.
  destruct (String.eqb (network.name_label net) "_meta") eqn:Hg.
  { rewrite log_calls_app.
    assert (Hnone : (match VM_guest_metrics_get_record s (VM.guest_metrics record) with
                     | Reply metrics =>
                         Some {| ev_group := network.name_label net;
                                 ev_name := VM.name_label record;
                                 ev_ip := first_ip metrics |}
                     | Fault _ => None
                     end ≫= fun e => if String.eqb (ev_group e) "_meta" then None
                                     else Some (apply_event st e)) = None).
    { destruct (VM_guest_metrics_get_record s (VM.guest_metrics record));
        cbn [mbind option_bind ev_group]; rewrite ?Hg; reflexivity. }
    rewrite Hnone. eexists _, _. split; [reflexivity|].
    split; [repeat constructor|].
    exists AttributeError. split; [reflexivity | left; reflexivity]. }
  rewrite bind_run, remote_run.
  destruct (VM_guest_metrics_get_record s (VM.guest_metrics record)) as [metrics|d].
  2:{ rewrite !log_calls_app. eexists _, _. split; [reflexivity|].
      split; [repeat constructor|].
      exists (Failure d). split; [reflexivity | right; eauto]. }
  cbn [mbind option_bind ev_group]. rewrite Hg.
  unfold lift.
  change (PDict [("ansible_host", first_ip metrics)]) with (host_entry (first_ip metrics)).
  rewrite set_hostvars_document. rewrite !log_calls_app.
  eexists _, _. split; [reflexivity|]. split; [repeat constructor|]. reflexivity.
Qed.

Lemma vm_body_builds (vm : string) (st : state) (w : world) :
  builds (vm_body s vm (document st)) w (vm_step s vm st).
Proof.
  unfold vm_body, vm_step, xenapi_VM_get_record.
  unfold builds. rewrite bind_run, remote_run.
  destruct (VM_get_record s vm) as [record|d].
  2:{ eexists _, _. split; [reflexivity|]. split; [repeat constructor|].
      exists (Failure d). split; [reflexivity | right; eauto]. }
  fold (eligible record). destruct (eligible record).
  - destruct (for_each_builds (vif_step s record) (vif_body s record)
                (vif_body_builds record) (VM.VIFs record) st
                (log_calls [CallVMGetRecord vm] w)) as (l & r & Hrun & Hl & Hr).
    exists (CallVMGetRecord vm :: l), r. rewrite Hrun, log_calls_app.
    split; [reflexivity|]. split; [constructor; [reflexivity | exact Hl] | exact Hr].
  - eexists _, _. split; [reflexivity|]. split; [repeat constructor | reflexivity].
Qed.

Lemma same_disk_log_calls (l : list call) (w : world) : same_disk w (log_calls l w).
Proof. repeat split. Qed.

Lemma list_inventory_runs (w : world) :
  match outcome s with
  | Some st =>
      exists l, Forall (fun c => is_listing c = false) l
        /\ list_inventory s w = (Ok (document st), log_calls (CallVMGetAll :: l) w)
  | None =>
      exists e w', list_inventory s w = (Raise e, w')
        /\ (e = SystemExit 1 \/ e = AttributeError) /\ same_disk w w'
  end.
Proof.
  unfold outcome, list_inventory, try_except, xenapi_VM_get_all.
  rewrite bind_run, remote_run.
  destruct (VM_get_all s) as [all_vms|d].
  2:{ eexists _, _. split; [reflexivity|]. split; [left; reflexivity | repeat split]. }
  change (PDict [("_meta", PDict [("hostvars", PDict [])])]) with (document initial).
  destruct (for_each_builds (vm_step s) (vm_body s) vm_body_builds all_vms initial
              (log_calls [CallVMGetAll] w)) as (l & r & Hrun & Hl & Hr).
  rewrite Hrun, log_calls_app.
  destruct (run_steps (vm_step s) all_vms initial) as [st|].
  - subst r. exists l. split; [exact Hl | reflexivity].
  - destruct Hr as (e & -> & [->|[d ->]]).
    + eexists _, _. split; [reflexivity|]. split; [right; reflexivity | repeat split].
    + eexists _, _. split; [reflexivity|]. split; [left; reflexivity | repeat split].
Qed.

End session.

(** ** Outcomes as folds over events *)

Lemma run_steps_total {X S} (step : X -> S -> option S) (xs : list X) :
  (forall x, In x xs -> forall st, is_Some (step x st)) ->
  forall st, is_Some (run_steps step xs st).
Proof.
  induction xs as [|x xs IH]; intros H st; cbn [run_steps]; [eauto|].
  destruct (H x (or_introl eq_refl) st) as [st' ->]. cbn [mbind option_bind].
  apply IH. intros y Hy. apply H. right. exact Hy.
Qed.

Section session_events.
Variable s : Session.

Lemma vif_event_inv (record : VM.record) (i : string) (e : event) :
  vif_event s record i = Some e ->
  exists vif net metrics,
    VIF_get_record s i = Reply vif
    /\ network_get_record s (VIF.network vif) = Reply net
    /\ VM_guest_metrics_get_record s (VM.guest_metrics record) = Reply metrics
    /\ e = {| ev_group := network.name_label net;
              ev_name := VM.name_label record;
              ev_ip := first_ip metrics |}.
Proof.
  unfold vif_event. intros H.
  destruct (VIF_get_record s i) as [vif|]; [|discriminate].
  destruct (network_get_record s (VIF.network vif)) as [net|] eqn:Hn; [|discriminate].
  destruct (VM_guest_metrics_get_record s (VM.guest_metrics record)) as [m|];
    [|discriminate].
  injection H as <-. exists vif, net, m. auto.
Qed.

Lemma vif_steps_events (record : VM.record) (vifs : list string) :
  forall st st',
    run_steps (vif_step s record) vifs st = Some st' ->
    exists evs,
      Forall2 (fun i e => vif_event s record i = Some e) vifs evs
      /\ st' = replay evs st /\ Forall ordinary evs.
Proof.
  induction vifs as [|i vifs IH]; intros st st'; cbn [run_steps].
  - intros [= <-]. exists []. repeat split; constructor.
  - destruct (vif_step s record i st) as [st1|] eqn:H1; cbn [mbind option_bind];
      intros H; [|discriminate H].
    unfold vif_step in H1.
    destruct (vif_event s record i) as [e|] eqn:He; cbn [mbind option_bind] in H1;
      [|discriminate H1].
    destruct (String.eqb_spec (ev_group e) "_meta") as [|Hg]; [discriminate H1|].
    injection H1 as <-.
    destruct (IH _ _ H) as (evs & HF & -> & Hok).
    exists (e :: evs). repeat split; [constructor; assumption | constructor; assumption].
Qed.

Lemma vm_steps_events (vms : list string) :
  forall st st',
    run_steps (vm_step s) vms st = Some st' ->
    exists evss,
      Forall2 (vm_events s) vms evss
      /\ st' = replay (concat evss) st /\ Forall ordinary (concat evss).
Proof.
  induction vms as [|vm vms IH]; intros st st'; cbn [run_steps].
  - intros [= <-]. exists []. repeat split; constructor.
  - destruct (vm_step s vm st) as [st1|] eqn:H1; cbn [mbind option_bind];
      intros H; [|discriminate H].
    unfold vm_step in H1.
    destruct (VM_get_record s vm) as [record|] eqn:Hr; [|discriminate H1].
    destruct (IH _ _ H) as (evss & HF' & -> & Hok').
    destruct (eligible record) eqn:Hel.
    + destruct (vif_steps_events _ _ _ _ H1) as (evs & HF & -> & Hok).
      exists (evs :: evss). cbn [concat]. unfold replay. rewrite fold_left_app.
      repeat split.
      * constructor; [|exact HF']. exists record. rewrite Hel. auto.
      * apply Forall_app. auto.
    + injection H1 as <-.
      exists ([] :: evss). cbn [concat app]. repeat split; [|exact Hok'].
      constructor; [|exact HF']. exists record. rewrite Hel. auto.
Qed.

(** Every event of a listing stems from one interface of one eligible VM. *)
Lemma events_sound (vms : list string) (evss : list (list event)) (e : event) :
  Forall2 (vm_events s) vms evss ->
  In e (concat evss) ->
  exists vm record i,
    In vm vms /\ VM_get_record s vm = Reply record /\ eligible record = true
    /\ In i (VM.VIFs record) /\ vif_event s record i = Some e.
Proof.
  induction 1 as [|vm evs vms evss Hvm HF IH]; cbn [concat]; [intros []|].
  intros Hin. apply in_app_or in Hin as [Hin|Hin].
  - destruct Hvm as (record & Hr & Hevs).
    destruct (eligible record) eqn:Hel; [|subst evs; destruct Hin].
    assert (exists i, In i (VM.VIFs record) /\ vif_event s record i = Some e) as (i & Hi & He).
    { clear -Hevs Hin. induction Hevs as [|i e' vifs evs Hie HF IH]; [destruct Hin|].
      destruct Hin as [->|Hin].
      - exists i. split; [left; reflexivity | exact Hie].
      - destruct (IH Hin) as (j & Hj & Hje). exists j. split; [right; exact Hj | exact Hje]. }
    exists vm, record, i. repeat split; try assumption. left. reflexivity.
  - destruct (IH Hin) as (vm' & record & i & Hvm' & H').
    exists vm', record, i. split; [right; exact Hvm' | exact H'].
Qed.

(** Every interface of every eligible VM of a listing left its event. *)
Lemma events_complete (vms : list string) (evss : list (list event))
    (vm : string) (record : VM.record) (i : string) :
  Forall2 (vm_events s) vms evss ->
  In vm vms -> VM_get_record s vm = Reply record -> eligible record = true ->
  In i (VM.VIFs record) ->
  exists e, vif_event s record i = Some e /\ In e (concat evss).
Proof.
  intros HF Hvm Hr Hel Hi.
  induction HF as [|vm' evs vms evss Hvm' HF IH]; [destruct Hvm|].
  cbn [concat]. destruct Hvm as [->|Hvm].
  - destruct Hvm' as (record' & Hr' & Hevs). rewrite Hr in Hr'. injection Hr' as <-.
    rewrite Hel in Hevs.
    assert (exists e, vif_event s record i = Some e /\ In e evs) as (e & He & Hin).
    { clear -Hevs Hi. induction Hevs as [|j e' vifs evs Hje HF IH]; [destruct Hi|].
      destruct Hi as [->|Hi].
      - exists e'. split; [exact Hje | left; reflexivity].
      - destruct (IH Hi) as (e & He & Hin). exists e. split; [exact He | right; exact Hin]. }
    exists e. split; [exact He | apply in_or_app; left; exact Hin].
  - destruct (IH Hvm) as (e & He & Hin).
    exists e. split; [exact He | apply in_or_app; right; exact Hin].
Qed.

Lemma outcome_events (st : state) :
  outcome s = Some st ->
  exists all_vms evss,
    VM_get_all s = Reply all_vms
    /\ Forall2 (vm_events s) all_vms evss
    /\ st = replay (concat evss) initial
    /\ Forall ordinary (concat evss).
Proof.
  unfold outcome. destruct (VM_get_all s) as [all_vms|]; [|discriminate].
  intros H. destruct (vm_steps_events _ _ _ H) as (evss & HF & Hst & Hok).
  exists all_vms, evss. auto.
Qed.

Lemma answers_outcome : answers s = true -> is_Some (outcome s).
Proof.
  unfold answers, outcome. destruct (VM_get_all s) as [all_vms|]; [|discriminate].
  intros Hvms. apply run_steps_total. intros vm Hvm st.
  pose proof (proj1 (forallb_forall _ _) Hvms vm Hvm) as Hrec. cbv beta in Hrec.
  unfold vm_step. destruct (VM_get_record s vm) as [record|]; [|discriminate Hrec].
  destruct (eligible record); [|eauto].
  apply run_steps_total. intros i Hi st1.
  pose proof (proj1 (forallb_forall _ _) Hrec i Hi) as Hvif. cbv beta in Hvif.
  unfold vif_step, vif_event.
  destruct (VIF_get_record s i) as [vif|]; [|discriminate Hvif].
  destruct (network_get_record s (VIF.network vif)) as [net|]; [|discriminate Hvif].
  apply andb_true_iff in Hvif as [Hname Hm].
  destruct (VM_guest_metrics_get_record s (VM.guest_metrics record)); [|discriminate Hm].
  cbn [mbind option_bind ev_group].
  destruct (String.eqb (network.name_label net) "_meta"); [discriminate Hname | eauto].
Qed.

End session_events.

(** ** Replaying events *)

Lemma dict_get_app {A} (d d' : items A) (k : string) :
  dict_get (d ++ d') k = match dict_get d k with
                         | Some v => Some v
                         | None => dict_get d' k
                         end.
Proof.
  induction d as [|[k' v'] d IH]; [reflexivity|].
  cbn [app dict_get]. destruct (String.eqb k' k); [reflexivity | exact IH].
Qed.

Lemma dict_get_add_member_eq (gs : items (list string)) (g n : string) :
  dict_get (add_member gs g n) g = Some (default [] (dict_get gs g) ++ [n]).
Proof.
  unfold add_member. destruct (dict_get gs g) as [l|] eqn:E.
  - apply dict_get_set_eq.
  - rewrite dict_get_app, E. cbn [dict_get]. rewrite String.eqb_refl. reflexivity.
Qed.

Lemma dict_get_add_member_ne (gs : items (list string)) (g g' n : string) :
  g <> g' -> dict_get (add_member gs g n) g' = dict_get gs g'.
Proof.
  intros Hne. unfold add_member. destruct (dict_get gs g) as [l|] eqn:E.
  - apply dict_get_set_ne. exact Hne.
  - rewrite dict_get_app. destruct (dict_get gs g'); [reflexivity|].
    cbn [dict_get]. destruct (String.eqb_spec g g'); [contradiction | reflexivity].
Qed.

Lemma add_member_dict_set (gs : items (list string)) (g n : string) :
  add_member gs g n = dict_set gs g (default [] (dict_get gs g) ++ [n]).
Proof.
  unfold add_member. destruct (dict_get gs g) as [l|] eqn:E; [reflexivity|].
  rewrite dict_set_fresh by (apply dict_get_None; exact E). reflexivity.
Qed.

Lemma replay_snoc (evs : list event) (e : event) (st : state) :
  replay (evs ++ [e]) st = apply_event (replay evs st) e.
Proof. unfold replay. rewrite fold_left_app. reflexivity. Qed.

Lemma replay_members_sound (evs : list event) (g n : string) (l : list string) :
  dict_get (groups (replay evs initial)) g = Some l -> In n l ->
  exists e, In e evs /\ ev_group e = g /\ ev_name e = n.
Proof.
  revert l. induction evs as [|e evs IH] using rev_ind; intros l.
  - discriminate.
  - rewrite replay_snoc. cbn [apply_event groups].
    destruct (decide (ev_group e = g)) as [<-|Hne].
    + rewrite dict_get_add_member_eq. intros [= <-] Hin.
      apply in_app_or in Hin as [Hin|[<-|[]]].
      * destruct (dict_get (groups (replay evs initial)) (ev_group e)) as [l0|] eqn:E;
          [|destruct Hin].
        destruct (IH l0 eq_refl Hin) as (e' & He' & Hg & Hn).
        exists e'. split; [apply in_or_app; left; exact He' | auto].
      * exists e. split; [apply in_or_app; right; left; reflexivity | auto].
    + rewrite dict_get_add_member_ne by exact Hne. intros Hl Hin.
      destruct (IH l Hl Hin) as (e' & He' & Hg & Hn).
      exists e'. split; [apply in_or_app; left; exact He' | auto].
Qed.

Lemma replay_members_complete (evs : list event) (e : event) :
  In e evs ->
  exists l, dict_get (groups (replay evs initial)) (ev_group e) = Some l
            /\ In (ev_name e) l.
Proof.
  induction evs as [|e' evs IH] using rev_ind; [intros []|].
  intros Hin. rewrite replay_snoc. cbn [apply_event groups].
  apply in_app_or in Hin as [Hin|[->|[]]].
  - destruct (IH Hin) as (l & Hl & Hn).
    destruct (decide (ev_group e' = ev_group e)) as [Heq|Hne].
    + rewrite Heq, dict_get_add_member_eq, Hl. cbn [default].
      eexists. split; [reflexivity | apply in_or_app; left; exact Hn].
    + rewrite dict_get_add_member_ne by exact Hne. eauto.
  - rewrite dict_get_add_member_eq. eexists. split; [reflexivity|].
    apply in_or_app. right. left. reflexivity.
Qed.

Lemma replay_hosts_sound (evs : list event) (n : string) (ip : pyval) :
  dict_get (hosts (replay evs initial)) n = Some ip ->
  exists e, In e evs /\ ev_name e = n /\ ev_ip e = ip.
Proof.
  induction evs as [|e evs IH] using rev_ind; [discriminate|].
  rewrite replay_snoc. cbn [apply_event hosts].
  destruct (decide (ev_name e = n)) as [<-|Hne].
  - rewrite dict_get_set_eq. intros [= <-].
    exists e. split; [apply in_or_app; right; left; reflexivity | auto].
  - rewrite dict_get_set_ne by exact Hne. intros H.
    destruct (IH H) as (e' & He' & Hn & Hip).
    exists e'. split; [apply in_or_app; left; exact He' | auto].
Qed.

Lemma replay_hosts_complete (evs : list event) (e : event) :
  In e evs -> ev_name e ∈ keys (hosts (replay evs initial)).
Proof.
  induction evs as [|e' evs IH] using rev_ind; [intros []|].
  intros Hin. rewrite replay_snoc. cbn [apply_event hosts].
  apply elem_of_keys_dict_set.
  apply in_app_or in Hin as [Hin|[->|[]]]; [right; exact (IH Hin) | left; reflexivity].
Qed.

Lemma apply_event_well_formed (st : state) (e : event) :
  well_formed st -> ordinary e -> is_ip (ev_ip e) = true ->
  well_formed (apply_event st e).
Proof.
  intros (Hg & Hm & Hh & Hip) He Hi. unfold well_formed. cbn [apply_event groups hosts].
  rewrite add_member_dict_set. repeat split.
  - apply NoDup_keys_dict_set. exact Hg.
  - rewrite elem_of_keys_dict_set. intros [H|H]; [apply He; congruence | contradiction].
  - apply NoDup_keys_dict_set. exact Hh.
  - apply (dict_set_values _ _ _ (fun v => is_ip v = true)); assumption.
Qed.

Lemma replay_well_formed (evs : list event) :
  Forall ordinary evs -> Forall (fun e => is_ip (ev_ip e) = true) evs ->
  well_formed (replay evs initial).
Proof.
  induction evs as [|e evs IH] using rev_ind; intros Hok Hip.
  - repeat split; cbn; try constructor. apply not_elem_of_nil.
  - apply Forall_app in Hok as [Hok He]. apply Forall_app in Hip as [Hip Hi].
    rewrite replay_snoc. apply apply_event_well_formed.
    + apply IH; assumption.
    + apply Forall_cons in He as [He _]. exact He.
    + apply Forall_cons in Hi as [Hi _]. exact Hi.
Qed.

Lemma first_ip_is_ip (metrics : VM_guest_metrics.record) : is_ip (first_ip metrics) = true.
Proof. unfold first_ip. destruct (_ !! _); reflexivity. Qed.

Lemma outcome_well_formed (s : Session) (st : state) :
  outcome s = Some st -> well_formed st.
Proof.
  intros H. destruct (outcome_events s st H) as (vms & evss & _ & HF & -> & Hok).
  apply replay_well_formed; [exact Hok|].
  apply List.Forall_forall. intros e He.
  destruct (events_sound s vms evss e HF He) as (vm & record & i & _ & _ & _ & _ & Hev).
  destruct (vif_event_inv s record i e Hev) as (vif & net & m & _ & _ & _ & ->).
  apply first_ip_is_ip.
Qed.

(** ** Reading a document *)

Lemma group_of_document (st : state) (g : string) :
  g <> "_meta" ->
  group_of (document st) g = map PStr <$> dict_get (groups st) g.
Proof.
  intros Hne. unfold group_of, document, py_get. cbn [dict_get].
  destruct (String.eqb_spec "_meta" g); [congruence|].
  rewrite dict_get_on_values. destruct (dict_get (groups st) g); reflexivity.
Qed.

Lemma group_of_document_meta (st : state) : group_of (document st) "_meta" = None.
Proof. reflexivity. Qed.

Lemma hostvars_of_document (st : state) :
  hostvars_of (document st) = Some (on_values host_entry (hosts st)).
Proof. reflexivity. Qed.

Lemma In_map_PStr (n : string) (l : list string) : In (PStr n) (map PStr l) <-> In n l.
Proof.
  rewrite in_map_iff. split; [intros (x & [= ->] & H); exact H | eauto].
Qed.

Lemma count_keys_NoDup (l : list string) (k : string) :
  NoDup l -> k ∈ l -> count_occ string_dec l k = 1%nat.
Proof.
  intros Hnd Hin. apply NoDup_ListNoDup in Hnd. apply list_elem_of_In in Hin.
  pose proof (proj1 (NoDup_count_occ string_dec l) Hnd k) as Hle.
  pose proof (proj1 (count_occ_In string_dec l k) Hin). lia.
Qed.

(** ** The Inventory Builder *)

Lemma list_inventory_Ok (s : Session) (w w' : world) (inv : pyval) :
  list_inventory s w = (Ok inv, w') ->
  exists st, outcome s = Some st /\ inv = document st
             /\ exists l, Forall (fun c => is_listing c = false) l
                          /\ w' = log_calls (CallVMGetAll :: l) w.
Proof.
  intros Hrun. pose proof (list_inventory_runs s w) as H.
  destruct (outcome s) as [st|].
  - destruct H as (l & Hl & H). rewrite H in Hrun. injection Hrun as <- <-.
    exists st. split; [reflexivity|]. split; [reflexivity|]. exists l. auto.
  - destruct H as (e & w1 & H & _). rewrite H in Hrun. discriminate Hrun.
Qed.

Lemma eligible_flags (record : VM.record) :
  eligible record = true
  <-> VM.is_control_domain record = false /\ VM.is_a_template record = false.
Proof.
  unfold eligible. destruct (VM.is_control_domain record), (VM.is_a_template record);
    cbn; intuition congruence.
Qed.

(** The names a listing records all stem from eligible VMs with an
    interface. *)
Lemma recorded_names_sound (s : Session) (all_vms : list string)
    (evss : list (list event)) (name : string) :
  Forall2 (vm_events s) all_vms evss ->
  (forall vm record, In vm all_vms -> VM_get_record s vm = Reply record ->
                     VM.name_label record = name ->
                     eligible record = false \/ VM.VIFs record = []) ->
  forall e, In e (concat evss) -> ev_name e <> name.
Proof.
  intros HF Hnone e He Hname.
  destruct (events_sound s _ _ e HF He) as (vm & record & i & Hvm & Hr & Hel & Hi & Hev).
  destruct (vif_event_inv s record i e Hev) as (vif & net & m & _ & _ & _ & ->).
  cbn [ev_name] in Hname.
  destruct (Hnone vm record Hvm Hr Hname) as [H|H]; [congruence|].
  rewrite H in Hi. destruct Hi.
Qed.

Lemma absent_from_hostvars (st : state) (evs : list event) (name : string) :
  st = replay evs initial ->
  (forall e, In e evs -> ev_name e <> name) ->
  exists hv, hostvars_of (document st) = Some hv /\ name ∉ keys hv.
Proof.
  intros -> Hnone. eexists. split; [apply hostvars_of_document|].
  rewrite keys_on_values. intros Hin. apply dict_get_is_Some in Hin as [ip Hip].
  destruct (replay_hosts_sound _ _ _ Hip) as (e & He & Hn & _).
  exact (Hnone e He Hn).
Qed.

Lemma absent_from_groups (st : state) (evs : list event) (name : string) :
  st = replay evs initial ->
  (forall e, In e evs -> ev_name e <> name) ->
  forall g members, group_of (document st) g = Some members -> ~ In (PStr name) members.
Proof.
  intros -> Hnone g members Hg Hin.
  destruct (decide (g = "_meta")) as [->|Hne]; [discriminate Hg|].
  rewrite group_of_document in Hg by exact Hne.
  destruct (dict_get (groups (replay evs initial)) g) as [l|] eqn:E; [|discriminate Hg].
  injection Hg as <-. apply In_map_PStr in Hin.
  destruct (replay_members_sound _ _ _ _ E Hin) as (e & He & _ & Hn).
  exact (Hnone e He Hn).
Qed.

(** C2: an eligible VM with at least one VIF stands under every group its
    VIFs' networks name and has exactly one entry in [_meta.hostvars],
    whatever its number of VIFs; a name label that only VMs without a VIF
    bear has no [hostvars] entry. *)
Theorem eligible_vm_grouped_and_listed_once
    (s : Session) (w w' : world) (inv : pyval) (all_vms : list string) :
  list_inventory s w = (Ok inv, w') ->
  VM_get_all s = Reply all_vms ->
  (forall vm record,
      In vm all_vms -> VM_get_record s vm = Reply record ->
      VM.is_control_domain record = false -> VM.is_a_template record = false ->
      VM.VIFs record <> [] ->
      (forall i vif net,
          In i (VM.VIFs record) -> VIF_get_record s i = Reply vif ->
          network_get_record s (VIF.network vif) = Reply net ->
          exists members,
            group_of inv (network.name_label net) = Some members
            /\ In (PStr (VM.name_label record)) members)
      /\ exists hv, hostvars_of inv = Some hv
                    /\ count_occ string_dec (keys hv) (VM.name_label record) = 1%nat)
  /\ (forall name,
         (forall vm record,
             In vm all_vms -> VM_get_record s vm = Reply record ->
             VM.name_label record = name -> eligible record = true ->
             VM.VIFs record = []) ->
         exists hv, hostvars_of inv = Some hv /\ name ∉ keys hv).
Proof.
  intros Hrun Hall.
  destruct (list_inventory_Ok s w w' inv Hrun) as (st & Hout & -> & _).
  pose proof (outcome_well_formed s st Hout) as (_ & _ & Hnd & _).
  destruct (outcome_events s st Hout) as (vms & evss & Hall' & HF & Hst & Hok).
  rewrite Hall in Hall'. injection Hall' as <-.
  split.
  - intros vm record Hvm Hr Hc Ht Hvifs.
    assert (Hel : eligible record = true) by (apply eligible_flags; auto).
    split.
    + intros i vif net Hi Hv Hn.
      destruct (events_complete s _ _ vm record i HF Hvm Hr Hel Hi) as (e & Hev & He).
      destruct (vif_event_inv s record i e Hev) as (vif' & net' & m & Hv' & Hn' & _ & Heq).
      rewrite Hv in Hv'. injection Hv' as <-. rewrite Hn in Hn'. injection Hn' as <-.
      pose proof (proj1 (List.Forall_forall _ _) Hok e He) as Hord.
      destruct (replay_members_complete _ e He) as (l & Hl & Hin).
      subst e. cbn [ev_group ev_name] in *. unfold ordinary in Hord. cbn [ev_group] in Hord.
      exists (map PStr l). rewrite group_of_document by exact Hord.
      rewrite Hst, Hl. split; [reflexivity | apply In_map_PStr; exact Hin].
    + destruct (VM.VIFs record) as [|i vifs] eqn:Evifs; [congruence|].
      assert (Hi : In i (VM.VIFs record)) by (rewrite Evifs; left; reflexivity).
      destruct (events_complete s _ _ vm record i HF Hvm Hr Hel Hi) as (e & Hev & He).
      destruct (vif_event_inv s record i e Hev) as (vif' & net' & m & _ & _ & _ & Heq).
      pose proof (replay_hosts_complete _ e He) as Hkey.
      subst e. cbn [ev_name] in Hkey. rewrite <- Hst in Hkey.
      eexists. split; [apply hostvars_of_document|].
      rewrite keys_on_values. apply count_keys_NoDup; assumption.
  - intros name Hnone. apply (absent_from_hostvars st (concat evss) name Hst).
    apply (recorded_names_sound s all_vms evss name HF).
    intros vm record Hvm Hr Hname.
    destruct (eligible record) eqn:Hel; [right | left; reflexivity].
    exact (Hnone vm record Hvm Hr Hname Hel).
Qed.

(** C3: a control domain or a template is skipped by the loop, and a name
    label that only such records bear stands in no group and has no
    [_meta.hostvars] entry. *)
Theorem ineligible_vm_absent
    (s : Session) (w w' : world) (inv : pyval) (all_vms : list string) (name : string) :
  list_inventory s w = (Ok inv, w') ->
  VM_get_all s = Reply all_vms ->
  (forall vm record,
      In vm all_vms -> VM_get_record s vm = Reply record ->
      VM.name_label record = name ->
      VM.is_control_domain record = true \/ VM.is_a_template record = true) ->
  (forall vm record inventory w0,
      VM_get_record s vm = Reply record -> VM.name_label record = name ->
      In vm all_vms ->
      vm_body s vm inventory w0 = (Ok inventory, log_calls [CallVMGetRecord vm] w0))
  /\ (forall g members, group_of inv g = Some members -> ~ In (PStr name) members)
  /\ exists hv, hostvars_of inv = Some hv /\ name ∉ keys hv.
Proof.
  intros Hrun Hall Hflags.
  assert (Hinel : forall vm record, In vm all_vms -> VM_get_record s vm = Reply record ->
                    VM.name_label record = name -> eligible record = false).
  { intros vm record Hvm Hr Hn. unfold eligible.
    destruct (Hflags vm record Hvm Hr Hn) as [-> | ->]; [reflexivity|].
    apply andb_false_r. }
  split.
  - intros vm record inventory w0 Hr Hn Hvm.
    unfold vm_body, xenapi_VM_get_record. rewrite bind_run, remote_run, Hr.
    fold (eligible record). rewrite (Hinel vm record Hvm Hr Hn). reflexivity.
  - destruct (list_inventory_Ok s w w' inv Hrun) as (st & Hout & -> & _).
    destruct (outcome_events s st Hout) as (vms & evss & Hall' & HF & Hst & Hok).
    rewrite Hall in Hall'. injection Hall' as <-.
    assert (Hnone : forall e, In e (concat evss) -> ev_name e <> name).
    { apply (recorded_names_sound s all_vms evss name HF).
      intros vm record Hvm Hr Hn. left. exact (Hinel vm record Hvm Hr Hn). }
    split.
    + exact (absent_from_groups st _ name Hst Hnone).
    + exact (absent_from_hostvars st _ name Hst Hnone).
Qed.

Import Expected.

(** ** The passes of a build *)

Lemma members_of_snoc (evs : list event) (e : event) (g : string) :
  members_of (evs ++ [e]) g
  = members_of evs g ++ (if String.eqb (ev_group e) g then [ev_name e] else []).
Proof.
  unfold members_of. rewrite List.filter_app, map_app. cbn [List.filter].
  destruct (String.eqb (ev_group e) g); reflexivity.
Qed.

Lemma replay_members (evs : list event) (g : string) :
  dict_get (groups (replay evs initial)) g
  = match members_of evs g with
    | [] => None
    | l => Some l
    end.
Proof.
  induction evs as [|e evs IH] using rev_ind; [reflexivity|].
  rewrite replay_snoc, members_of_snoc. cbn [apply_event groups].
  destruct (String.eqb_spec (ev_group e) g) as [<-|Hne].
  - rewrite dict_get_add_member_eq, IH.
    destruct (members_of evs (ev_group e)) as [|n l]; reflexivity.
  - rewrite dict_get_add_member_ne by exact Hne. rewrite IH, app_nil_r. reflexivity.
Qed.

Lemma replay_address (evs : list event) (n : string) :
  dict_get (hosts (replay evs initial)) n = address_of evs n.
Proof.
  induction evs as [|e evs IH] using rev_ind; [reflexivity|].
  rewrite replay_snoc. cbn [apply_event hosts]. unfold address_of.
  rewrite List.filter_app, map_app. cbn [List.filter].
  destruct (String.eqb_spec (ev_name e) n) as [<-|Hne].
  - rewrite dict_get_set_eq. cbn [map]. rewrite last_snoc. reflexivity.
  - rewrite dict_get_set_ne by exact Hne. rewrite IH, app_nil_r. reflexivity.
Qed.

Lemma collect_Forall2 {A B} (f : A -> option B) (l : list A) (l' : list B) :
  Forall2 (fun x y => f x = Some y) l l' -> collect f l = Some l'.
Proof.
  induction 1 as [|x y l l' Hxy _ IH]; [reflexivity|].
  cbn [collect]. rewrite Hxy, IH. reflexivity.
Qed.

Lemma vm_events_visit (s : Session) (vm : string) (evs : list event) :
  vm_events s vm evs -> vm_visit s vm = Some evs.
Proof.
  intros (record & Hr & Hevs). unfold vm_visit. rewrite Hr.
  destruct (eligible record); [apply collect_Forall2; exact Hevs | congruence].
Qed.

Lemma outcome_visits (s : Session) (st : state) :
  outcome s = Some st ->
  exists evs, visits s = Some evs /\ st = replay evs initial
              /\ Forall ordinary evs.
Proof.
  intros Hout. destruct (outcome_events s st Hout) as (vms & evss & Hall & HF & Hst & Hok).
  exists (concat evss). split; [|auto].
  unfold visits. rewrite Hall.
  rewrite (collect_Forall2 (vm_visit s) vms evss); [reflexivity|].
  clear -HF. induction HF as [|vm evs vms evss Hvm _ IH]; constructor;
    [apply vm_events_visit; exact Hvm | exact IH].
Qed.

(** C9: a guest-metrics record without the key ["0/ip"] does not fail the
    build: when every record fetch replies, the build completes; a VM whose
    metrics lack the key gets a null [ansible_host]; and the inventory is
    built in full: every group lists the names of the passes for its
    network, and every host variable holds the address of the last pass
    for its name label. *)
Theorem missing_first_ip_is_null (s : Session) (w : world) :
  answers s = true ->
  exists inv w' evs hv,
    list_inventory s w = (Ok inv, w')
    /\ visits s = Some evs
    /\ (forall group,
          group <> "_meta" ->
          group_of inv group
          = match members_of evs group with
            | [] => None
            | names => Some (map PStr names)
            end)
    /\ hostvars_of inv = Some hv
    /\ (forall name,
          dict_get hv name
          = (fun ip => PDict [("ansible_host", ip)]) <$> address_of evs name)
    /\ forall all_vms name,
         VM_get_all s = Reply all_vms ->
         (exists vm record,
             In vm all_vms /\ VM_get_record s vm = Reply record
             /\ VM.name_label record = name /\ eligible record = true
             /\ VM.VIFs record <> []) ->
         (forall vm record metrics,
             In vm all_vms -> VM_get_record s vm = Reply record ->
             VM.name_label record = name -> eligible record = true ->
             VM_guest_metrics_get_record s (VM.guest_metrics record) = Reply metrics ->
             lacks_first_ip metrics) ->
         dict_get hv name = Some (PDict [("ansible_host", PNone)]).
Proof.
  intros Hans. destruct (answers_outcome s Hans) as [st Hout].
  pose proof (list_inventory_runs s w) as Hrun. rewrite Hout in Hrun.
  destruct Hrun as (l & _ & Hrun).
  destruct (outcome_visits s st Hout) as (evs & Hvis & Hrep & _).
  exists (document st), (log_calls (CallVMGetAll :: l) w), evs,
    (on_values host_entry (hosts st)).
  split; [exact Hrun|]. split; [exact Hvis|]. split.
  { intros g Hg. rewrite group_of_document by exact Hg. rewrite Hrep, replay_members.
    destruct (members_of evs g); reflexivity. }
  split; [apply hostvars_of_document|]. split.
  { intros name. rewrite dict_get_on_values, Hrep, replay_address. reflexivity. }
  clear evs Hvis Hrep.
  intros all_vms name Hall (vm & record & Hvm & Hr & Hname & Hel & Hvifs) Hlack.
  destruct (outcome_events s st Hout) as (vms & evss & Hall' & HF & Hst & Hok).
  rewrite Hall in Hall'. injection Hall' as <-.
  rewrite dict_get_on_values.
  destruct (VM.VIFs record) as [|i vifs] eqn:Evifs; [congruence|].
  assert (Hi : In i (VM.VIFs record)) by (rewrite Evifs; left; reflexivity).
  destruct (events_complete s _ _ vm record i HF Hvm Hr Hel Hi) as (e & Hev & He).
  destruct (vif_event_inv s record i e Hev) as (vif & net & m & _ & _ & _ & Heq).
  pose proof (replay_hosts_complete _ e He) as Hkey.
  subst e. cbn [ev_name] in Hkey. rewrite <- Hst, Hname in Hkey.
  apply dict_get_is_Some in Hkey as [ip Hip]. rewrite Hip. cbn [fmap option_fmap option_map].
  rewrite Hst in Hip.
  destruct (replay_hosts_sound _ _ _ Hip) as (e' & He' & Hn' & Hip').
  destruct (events_sound s _ _ e' HF He') as (vm' & record' & i' & Hvm' & Hr' & Hel' & _ & Hev').
  destruct (vif_event_inv s record' i' e' Hev') as (vif' & net' & m' & _ & _ & Hm' & Heq').
  subst e'. cbn [ev_name ev_ip] in *. subst ip.
  pose proof (Hlack vm' record' m' Hvm' Hr' Hn' Hel' Hm') as Hnone.
  unfold lacks_first_ip in Hnone. unfold first_ip. rewrite Hnone. reflexivity.
Qed.

(** C10: every entry of [_meta.hostvars] is a dict holding the key
    ["ansible_host"], with an address or null under it. *)
Theorem hostvars_entry_has_ansible_host
    (s : Session) (w w' : world) (inv : pyval) :
  list_inventory s w = (Ok inv, w') ->
  exists hv,
    hostvars_of inv = Some hv
    /\ forall name entry,
         dict_get hv name = Some entry ->
         exists ip, entry = PDict [("ansible_host", ip)]
                    /\ py_get entry "ansible_host" = Some ip
                    /\ is_ip ip = true.
Proof.
  intros Hrun.
  destruct (list_inventory_Ok s w w' inv Hrun) as (st & Hout & -> & _).
  pose proof (outcome_well_formed s st Hout) as (_ & _ & _ & Hips).
  eexists. split; [apply hostvars_of_document|].
  intros name entry. rewrite dict_get_on_values.
  destruct (dict_get (hosts st) name) as [ip|] eqn:E; [|discriminate].
  intros [= <-]. exists ip. repeat split.
  apply dict_get_Some_in in E.
  exact (proj1 (List.Forall_forall _ _) Hips (name, ip) E).
Qed.

(** ** Built documents are inventory documents *)

Lemma forallb_on_values {A B} (f : A -> B) (p : string * B -> bool) (d : items A) :
  forallb p (on_values f d) = forallb (fun kv => p (fst kv, f (snd kv))) d.
Proof.
  induction d as [|kv d IH]; [reflexivity|].
  cbn [on_values map forallb]. f_equal. exact IH.
Qed.

Lemma document_is_inventory (st : state) :
  well_formed st -> inventory_document (document st) = true.
Proof.
  intros (Hg & Hm & Hh & Hip). unfold document, inventory_document.
  cbn [keys map fst existsb forallb snd]. rewrite String.eqb_refl. cbn [orb].
  rewrite bool_decide_eq_true_2.
  2:{ apply NoDup_cons. split; [|fold (keys (on_values group_entry (groups st)));
                                  rewrite keys_on_values; exact Hg].
      fold (keys (on_values group_entry (groups st))). rewrite keys_on_values. exact Hm. }
  cbn [andb]. apply andb_true_iff. split.
  - cbn [is_meta]. rewrite String.eqb_refl. cbn [andb]. apply andb_true_iff. split.
    + apply bool_decide_eq_true_2. rewrite keys_on_values. exact Hh.
    + rewrite forallb_on_values. apply forallb_forall. intros [n ip] Hin.
      cbn [fst snd host_entry is_host_vars keys map forallb].
      rewrite bool_decide_eq_true_2 by (apply NoDup_singleton). cbn [andb].
      pose proof (proj1 (List.Forall_forall _ _) Hip (n, ip) Hin) as Hx.
      cbn [snd] in Hx. rewrite Hx. reflexivity.
  - rewrite forallb_on_values. apply forallb_forall. intros [g l] Hin. cbn [fst snd].
    destruct (String.eqb_spec g "_meta") as [->|_].
    + exfalso. apply Hm. apply list_elem_of_In. apply in_map_iff. exists ("_meta", l). auto.
    + cbn [group_entry is_group]. apply forallb_forall. intros x Hx.
      apply in_map_iff in Hx as (n & <- & _). reflexivity.
Qed.

(** What [list_inventory] returns is an InventoryDocument. *)
Lemma list_inventory_document (s : Session) (w w' : world) (inv : pyval) :
  list_inventory s w = (Ok inv, w') -> inventory_document inv = true.
Proof.
  intros Hrun. destruct (list_inventory_Ok s w w' inv Hrun) as (st & Hout & -> & _).
  apply document_is_inventory. exact (outcome_well_formed s st Hout).
Qed.

(** ** The Cache Store *)

Lemma lookup_path_nonempty (w : world) (p : string) (n : node) :
  lookup_path w p = Some n -> p <> EmptyString.
Proof.
  unfold lookup_path. destruct (String.eqb_spec p EmptyString); [discriminate | auto].
Qed.

Lemma lookup_path_insert (w : world) (p : string) (n : node) :
  p <> EmptyString -> lookup_path (set_fs (insert p n) w) p = Some n.
Proof.
  intros Hp. unfold lookup_path. destruct (String.eqb_spec p EmptyString); [contradiction|].
  cbn [set_fs fs]. apply lookup_insert_eq.
Qed.

Lemma open_w_Ok (p fp : string) (w w1 : world) :
  open_w (Some p) w = (Ok fp, w1) ->
  fp = p /\ p <> EmptyString
  /\ w1 = set_fs (insert p (RegularFile (clock w) EmptyString)) w.
Proof.
  unfold open_w. destruct (lookup_path w p) as [[m t|m]|] eqn:E.
  - intros [= <- <-]. pose proof (lookup_path_nonempty _ _ _ E). auto.
  - discriminate.
  - destruct (String.eqb_spec p EmptyString) as [|Hp]; [discriminate|].
    destruct (PosixPath.ends_with_sep p); [discriminate|].
    destruct (parent_error w (PosixPath.dirname p) p); [discriminate|].
    intros [= <- <-]. auto.
Qed.

Lemma save_Ok (p : string) (data : pyval) (w w1 : world) :
  save (Some p) data w = (Ok tt, w1) ->
  lookup_path w1 p = Some (RegularFile (clock w) (dumps data))
  /\ rpc_log w1 = rpc_log w /\ clock w1 = clock w.
Proof.
  unfold save. rewrite bind_run.
  destruct (open_w (Some p) w) as [[fp|e] w0] eqn:E; [|discriminate].
  apply open_w_Ok in E as (-> & Hp & ->).
  unfold dump. intros [= <-]. split; [|split; reflexivity].
  cbn [clock set_fs]. apply lookup_path_insert. exact Hp.
Qed.

Lemma read_cache_run (p : string) (w : world) (mtime : Z) (text : string) :
  lookup_path w p = Some (RegularFile mtime text) ->
  read_cache (Some p) w = (match json_load w text with
                           | Parsed v => Ok v
                           | Malformed => Raise ValueError
                           | TooDeep => Raise RecursionError
                           end, w).
Proof.
  intros E. unfold read_cache, open_r. rewrite bind_run, E.
  unfold load. destruct (json_load w text); reflexivity.
Qed.



Lemma cache_is_fresh_run (p : string) (ttl : Z) (w : world) :
  cache_is_fresh (Some p) ttl w
  = (Ok match lookup_path w p with
        | Some (RegularFile mtime _) => clock w - mtime <? ttl
        | _ => false
        end, w).
Proof.
  unfold cache_is_fresh, os_path_isfile, os_stat, time. rewrite bind_run.
  destruct (lookup_path w p) as [[m t|m]|] eqn:E; try reflexivity.
  rewrite !bind_run, E. reflexivity.
Qed.

(** C4, as the code has it: the freshness check holds exactly when the path
    is a regular file whose age is strictly below the TTL; a file whose age
    is exactly the TTL is stale. *)
Theorem cache_is_fresh_iff (p : string) (ttl : Z) (w : world) :
  0 <= ttl ->
  exists fresh,
    cache_is_fresh (Some p) ttl w = (Ok fresh, w)
    /\ (fresh = true <->
        exists mtime text,
          lookup_path w p = Some (RegularFile mtime text) /\ clock w - mtime < ttl)
    /\ (forall mtime text,
          lookup_path w p = Some (RegularFile mtime text) ->
          clock w - mtime = ttl -> fresh = false).
Proof.
  intros _. eexists. split; [apply cache_is_fresh_run|]. split.
  - destruct (lookup_path w p) as [[m t|m]|].
    + rewrite Z.ltb_lt. split; [eauto | intros (m' & t' & [= <- <-] & H); exact H].
    + split; [discriminate | intros (m' & t' & [=] & _)].
    + split; [discriminate | intros (m' & t' & [=] & _)].
  - intros m t -> Hage. apply Z.ltb_ge. lia.
Qed.

(** ** The Inventory Orchestrator *)

Lemma list_and_save_run (s : Session) (path : option string) (w : world) :
  list_and_save s path w
  = match list_inventory s w with
    | (Ok data, w1) =>
        match save path data w1 with
        | (Ok _, w2) => (Ok data, w2)
        | (Raise e, w2) => (Raise e, w2)
        end
    | (Raise e, w1) => (Raise e, w1)
    end.
Proof.
  unfold list_and_save. rewrite bind_run.
  destruct (list_inventory s w) as [[data|e] w1]; [|reflexivity].
  rewrite bind_run. destruct (save path data w1) as [[[]|e] w2]; reflexivity.
Qed.

Lemma filter_listing_nil (l : list call) :
  Forall (fun c => is_listing c = false) l ->
  filter (fun c => is_listing c = true) l = [].
Proof.
  induction 1 as [|c l Hc Hl IH]; [reflexivity|].
  rewrite filter_cons. destruct (decide (is_listing c = true)); [congruence | exact IH].
Qed.

Lemma fetches_listing (l : list call) (w : world) :
  Forall (fun c => is_listing c = false) l ->
  fetches (log_calls (CallVMGetAll :: l) w) = S (fetches w).
Proof.
  intros Hl. unfold fetches, log_calls. cbn [rpc_log].
  rewrite filter_app, filter_cons. cbn [is_listing].
  destruct (decide (true = true)); [|congruence].
  rewrite (filter_listing_nil l Hl), length_app. cbn [length]. lia.
Qed.

Lemma list_and_save_Ok (s : Session) (p : string) (w w1 : world) (doc : pyval) :
  list_and_save s (Some p) w = (Ok doc, w1) ->
  inventory_document doc = true
  /\ lookup_path w1 p = Some (RegularFile (clock w) (dumps doc))
  /\ fetches w1 = S (fetches w).
Proof.
  rewrite list_and_save_run.
  destruct (list_inventory s w) as [[data|e] w0] eqn:Hrun; [|discriminate].
  destruct (save (Some p) data w0) as [[[]|e] w2] eqn:Hsave; [|discriminate].
  intros [= <- <-]. split; [exact (list_inventory_document s w w0 data Hrun)|].
  destruct (list_inventory_Ok s w w0 data Hrun) as (st & _ & _ & l & Hl & ->).
  apply save_Ok in Hsave as (Hfile & Hlog & _). split; [exact Hfile|].
  unfold fetches. rewrite Hlog. exact (fetches_listing l w Hl).
Qed.

(** C8: with an unset or empty cache path the operation raises in either
    refresh mode, and leaves the disk as it was. *)
Theorem unset_cache_path_fails
    (s : Session) (cache_path : option string) (ttl : Z) (refresh : bool) (w : world) :
  cache_path = None \/ cache_path = Some EmptyString ->
  exists e w',
    cached_inventory s cache_path ttl refresh w = (Raise e, w') /\ same_disk w w'.
Proof.
  intros Hpath. unfold cached_inventory. destruct refresh.
  - rewrite list_and_save_run. pose proof (list_inventory_runs s w) as Hrun.
    destruct (outcome s) as [st|].
    + destruct Hrun as (l & _ & ->).
      destruct Hpath as [-> | ->]; eexists _, _; (split; [reflexivity | repeat split]).
    + destruct Hrun as (e & w' & -> & _ & Hdisk). eauto.
  - destruct Hpath as [-> | ->].
    + eexists _, _. split; [reflexivity | repeat split].
    + eexists _, _. split; [reflexivity | repeat split].
Qed.



(** ** Two lookups in succession *)













Lemma cache_hit (s : Session) (p : string) (ttl : Z) (w : world)
    (mtime : Z) (text : string) (doc : pyval) :
  lookup_path w p = Some (RegularFile mtime text) ->
  clock w - mtime < ttl ->
  json_load w text = Parsed doc ->
  cached_inventory s (Some p) ttl false w = (Ok doc, w).
Proof.
  intros Hfile Hage Hdoc. unfold cached_inventory.
  rewrite bind_run, cache_is_fresh_run, Hfile, (proj2 (Z.ltb_lt _ _) Hage).
  unfold try_except. rewrite (read_cache_run p w mtime text Hfile), Hdoc. reflexivity.
Qed.




(** ** The sample pool *)




Lemma eligible_vm_grouped_and_listed_once_witness :
  list_inventory pool bare = (Ok inventory, log_calls calls bare)
  /\ VM_get_all pool = Reply listing
  /\ (exists members, group_of inventory "backup" = Some members
                      /\ In (PStr "C") members)
  /\ (exists hv, hostvars_of inventory = Some hv
                 /\ count_occ string_dec (keys hv) "C" = 1%nat)
  /\ (exists hv, hostvars_of inventory = Some hv /\ "D" ∉ keys hv).
Proof.
  assert (H1 : list_inventory pool bare = (Ok inventory, log_calls calls bare))
    by reflexivity.
  assert (H2 : VM_get_all pool = Reply listing) by reflexivity.
  destruct (eligible_vm_grouped_and_listed_once pool bare (log_calls calls bare)
              inventory listing H1 H2) as [Hvm Hnone].
  assert (Hc : In "vm-c" listing) by (right; right; left; reflexivity).
  assert (Hvifs : VM.VIFs vm_c <> []) by discriminate.
  destruct (Hvm "vm-c" vm_c Hc eq_refl eq_refl eq_refl Hvifs) as [Hgroups Hhost].
  split; [exact H1|]. split; [exact H2|]. split; [|split; [exact Hhost|]].
  - apply (Hgroups "vif-c2" {| VIF.network := "net-backup" |}
             {| network.name_label := "backup" |});
      [right; left; reflexivity | reflexivity | reflexivity].
  - apply Hnone. intros vm record Hin Hr Hname Hel.
    pool_record Hin Hr; first [discriminate Hname | reflexivity].
Defined.

Lemma ineligible_vm_absent_witness :
  list_inventory pool bare = (Ok inventory, log_calls calls bare)
  /\ VM_get_all pool = Reply listing
  /\ (forall g members, group_of inventory g = Some members -> ~ In (PStr "B") members)
  /\ (exists hv, hostvars_of inventory = Some hv /\ "B" ∉ keys hv).
Proof.
  assert (H1 : list_inventory pool bare = (Ok inventory, log_calls calls bare))
    by reflexivity.
  assert (H2 : VM_get_all pool = Reply listing) by reflexivity.
  assert (H3 : forall vm record,
             In vm listing -> VM_get_record pool vm = Reply record ->
             VM.name_label record = "B" ->
             VM.is_control_domain record = true \/ VM.is_a_template record = true).
  { intros vm record Hin Hr Hname.
    pool_record Hin Hr; first [discriminate Hname | left; reflexivity]. }
  destruct (ineligible_vm_absent pool bare (log_calls calls bare) inventory listing "B"
              H1 H2 H3) as (_ & Hg & Hh).
  split; [exact H1|]. split; [exact H2|]. split; [exact Hg | exact Hh].
Defined.

Lemma cache_is_fresh_iff_witness :
  0 <= 3600
  /\ exists fresh,
       cache_is_fresh (Some cache_file) 3600 warm = (Ok fresh, warm)
       /\ (fresh = true <->
           exists mtime text,
             lookup_path warm cache_file = Some (RegularFile mtime text)
             /\ clock warm - mtime < 3600)
       /\ (forall mtime text,
             lookup_path warm cache_file = Some (RegularFile mtime text) ->
             clock warm - mtime = 3600 -> fresh = false).
Proof.
  assert (H : 0 <= 3600) by lia.
  split; [exact H | exact (cache_is_fresh_iff cache_file 3600 warm H)].
Defined.

(** A directory at the cache path exists and is younger than the TTL, and
    the freshness check is false. *)
Lemma fresh_directory_counterexample :
  ~ (fst (cache_is_fresh (Some "/tmp") 3600 bare) = Ok true
     <-> fst (os_path_exists "/tmp" bare) = Ok true
         /\ exists st, fst (os_stat (Some "/tmp") bare) = Ok st
                       /\ clock bare - st_mtime st < 3600).
Proof.
  intros [_ H].
  assert (Hfresh : fst (cache_is_fresh (Some "/tmp") 3600 bare) = Ok true).
  { apply H. split; [reflexivity|]. exists (Directory 0). split; reflexivity. }
  discriminate Hfresh.
Qed.





Lemma unset_cache_path_fails_witness :
  (@None string = None \/ @None string = Some EmptyString)
  /\ exists e w',
       cached_inventory pool None 3600 true bare = (Raise e, w') /\ same_disk bare w'.
Proof.
  assert (H : @None string = None \/ @None string = Some EmptyString)
    by (left; reflexivity).
  split; [exact H | exact (unset_cache_path_fails pool None 3600 true bare H)].
Defined.

Lemma missing_first_ip_is_null_witness :
  answers pool = true
  /\ exists inv w' hv,
       list_inventory pool bare = (Ok inv, w')
       /\ group_of inv "prod" = Some [PStr "A"; PStr "C"]
       /\ group_of inv "backup" = Some [PStr "C"]
       /\ hostvars_of inv = Some hv
       /\ dict_get hv "A" = Some (PDict [("ansible_host", PStr "10.0.0.5")])
       /\ dict_get hv "C" = Some (PDict [("ansible_host", PNone)]).
Proof.
  assert (H : answers pool = true) by (vm_compute; reflexivity).
  split; [exact H|].
  destruct (missing_first_ip_is_null pool bare H)
    as (inv & w' & evs & hv & Hrun & Hvis & Hgroups & Hhv & Hhosts & Hnull).
  assert (Hpasses : visits pool = Some Cases.passes) by (vm_compute; reflexivity).
  rewrite Hpasses in Hvis. injection Hvis as <-.
  exists inv, w', hv. split; [exact Hrun|].
  split; [rewrite (Hgroups "prod") by discriminate; reflexivity|].
  split; [rewrite (Hgroups "backup") by discriminate; reflexivity|].
  split; [exact Hhv|].
  split; [rewrite (Hhosts "A"); reflexivity|].
  apply (Hnull listing "C"); [reflexivity | |].
  - exists "vm-c", vm_c. repeat split; [right; right; left; reflexivity | discriminate].
  - intros vm record metrics Hin Hr Hname Hel Hm.
    pool_record Hin Hr; try discriminate Hname.
    vm_compute in Hm. injection Hm as <-. reflexivity.
Defined.

Lemma hostvars_entry_has_ansible_host_witness :
  list_inventory pool bare = (Ok inventory, log_calls calls bare)
  /\ exists hv,
       hostvars_of inventory = Some hv
       /\ forall name entry,
            dict_get hv name = Some entry ->
            exists ip, entry = PDict [("ansible_host", ip)]
                       /\ py_get entry "ansible_host" = Some ip
                       /\ is_ip ip = true.
Proof.
  assert (H : list_inventory pool bare = (Ok inventory, log_calls calls bare))
    by reflexivity.
  split; [exact H|].
  exact (hostvars_entry_has_ansible_host pool bare (log_calls calls bare) inventory H).
Defined.

(** A forced refresh goes straight to [list_and_save]: when the parent of
    the cache path is missing, the fetch is made and the write fails. *)
Lemma refresh_into_missing_parent
    (s : Session) (p : string) (ttl : Z) (w w1 : world) (doc : pyval) :
  list_inventory s w = (Ok doc, w1) ->
  lookup_path w p = None ->
  PosixPath.ends_with_sep p = false ->
  PosixPath.dirname p <> EmptyString ->
  lookup_path w (PosixPath.dirname p) = None ->
  cached_inventory s (Some p) ttl true w = (Raise (OSError (Some ENOENT) p), w1).
Proof.
  intros Hrun Hfile Hsep Hdir Hparent.
  unfold cached_inventory. rewrite list_and_save_run, Hrun.
  destruct (list_inventory_Ok s w w1 doc Hrun) as (st & _ & _ & l & _ & ->).
  unfold save, open_w. rewrite bind_run.
  change (lookup_path (log_calls (CallVMGetAll :: l) w) p) with (lookup_path w p).
  rewrite Hfile, Hsep. destruct (String.eqb p EmptyString); [reflexivity|].
  unfold parent_error.
  destruct (String.eqb_spec (PosixPath.dirname p) EmptyString); [contradiction|].
  change (lookup_path (log_calls (CallVMGetAll :: l) w) (PosixPath.dirname p))
    with (lookup_path w (PosixPath.dirname p)).
  rewrite Hparent. reflexivity.
Qed.

(** C5: a forced refresh into a directory that does not exist yet fetches
    the inventory and then fails to open the cache file, where the lookup
    on the same disk creates the directory and writes the file. *)
Theorem refresh_skips_parent_creation :
  let refreshed := cached_inventory pool (Some new_cache_file) 3600 true bare in
  let looked_up := cached_inventory pool (Some new_cache_file) 3600 false bare in
  fst refreshed = Raise (OSError (Some ENOENT) new_cache_file)
  /\ lookup_path (snd refreshed) "/var/cache/xen" = None
  /\ lookup_path (snd refreshed) new_cache_file = None
  /\ fetches (snd refreshed) = 1%nat
  /\ fst looked_up = Ok inventory
  /\ lookup_path (snd looked_up) "/var/cache/xen" = Some (Directory 100)
  /\ lookup_path (snd looked_up) new_cache_file
     = Some (RegularFile 100 (dumps inventory)).
Proof. vm_compute. repeat split. Qed.

(** ** The builder: what the groups and the host variables hold *)

(** X1: each group of the returned document lists, in the order of the
    loops, one name label per interface on that network (a VM with two
    interfaces on a network is listed twice), and a network without
    interface has no group. *)
Theorem groups_list_one_name_per_interface
    (s : Session) (w w' : world) (inv : pyval) :
  list_inventory s w = (Ok inv, w') ->
  exists evs,
    visits s = Some evs
    /\ forall group,
         group <> "_meta" ->
         group_of inv group
         = match members_of evs group with
           | [] => None
           | names => Some (map PStr names)
           end.
Proof.
  intros Hrun. destruct (list_inventory_Ok s w w' inv Hrun) as (st & Hout & -> & _).
  destruct (outcome_visits s st Hout) as (evs & Hvis & -> & _).
  exists evs. split; [exact Hvis|]. intros g Hg.
  rewrite group_of_document by exact Hg. rewrite replay_members.
  destruct (members_of evs g); reflexivity.
Qed.

(** X2: the [hostvars] entry of a name label holds the address read on the
    last pass of the loops for that name label: when VMs share a name label
    the last one listed wins, and a name label without a pass has no
    entry. *)
Theorem hostvars_hold_last_address
    (s : Session) (w w' : world) (inv : pyval) :
  list_inventory s w = (Ok inv, w') ->
  exists evs hv,
    visits s = Some evs
    /\ hostvars_of inv = Some hv
    /\ forall name,
         dict_get hv name
         = (fun ip => PDict [("ansible_host", ip)]) <$> address_of evs name.
Proof.
  intros Hrun. destruct (list_inventory_Ok s w w' inv Hrun) as (st & Hout & -> & _).
  destruct (outcome_visits s st Hout) as (evs & Hvis & -> & _).
  exists evs. eexists. split; [exact Hvis|]. split; [apply hostvars_of_document|].
  intros name. rewrite dict_get_on_values, replay_address. reflexivity.
Qed.

(** X3: what the builder returns is an InventoryDocument: a dict with
    unique keys that holds the entry [_meta], whose only key is [hostvars]
    and whose host variables are dicts of addresses or nulls, and whose
    other entries are lists of strings. *)
Theorem built_document_is_inventory (s : Session) (w w' : world) (inv : pyval) :
  list_inventory s w = (Ok inv, w') ->
  inventory_document inv = true.
Proof. exact (list_inventory_document s w w' inv). Qed.

Lemma address_of_is_Some (evs : list event) (name : string) :
  is_Some (address_of evs name) <-> exists e, In e evs /\ ev_name e = name.
Proof.
  unfold address_of. rewrite last_is_Some. split.
  - intros Hne.
    destruct (List.filter (fun e => String.eqb (ev_name e) name) evs) as [|e l] eqn:E;
      [contradiction Hne; reflexivity|].
    assert (He : In e (List.filter (fun e => String.eqb (ev_name e) name) evs))
      by (rewrite E; left; reflexivity).
    apply List.filter_In in He as [He Hn]. exists e. split; [exact He|].
    apply String.eqb_eq. exact Hn.
  - intros (e & He & Hn) Hnil.
    assert (Hin : In e (List.filter (fun e => String.eqb (ev_name e) name) evs))
      by (apply List.filter_In; split; [exact He | apply String.eqb_eq; exact Hn]).
    apply (in_map ev_ip) in Hin. rewrite Hnil in Hin. destruct Hin.
Qed.

Lemma members_of_In (evs : list event) (group name : string) :
  In name (members_of evs group)
  <-> exists e, In e evs /\ ev_group e = group /\ ev_name e = name.
Proof.
  unfold members_of. rewrite in_map_iff. split.
  - intros (e & Hn & He). apply List.filter_In in He as [He Hg].
    exists e. split; [exact He|]. split; [apply String.eqb_eq; exact Hg | exact Hn].
  - intros (e & He & Hg & Hn). exists e. split; [exact Hn|].
    apply List.filter_In. split; [exact He | apply String.eqb_eq; exact Hg].
Qed.

(** X20: the two halves of a returned document agree: a name label has a
    [hostvars] entry exactly when it is listed in some group. *)
Theorem hosts_and_members_agree (s : Session) (w w' : world) (inv : pyval) :
  list_inventory s w = (Ok inv, w') ->
  exists hv,
    hostvars_of inv = Some hv
    /\ forall name,
         is_Some (dict_get hv name)
         <-> exists group members,
               group <> "_meta" /\ group_of inv group = Some members
               /\ In (PStr name) members.
Proof.
  intros Hrun. destruct (list_inventory_Ok s w w' inv Hrun) as (st & Hout & -> & _).
  destruct (outcome_visits s st Hout) as (evs & _ & -> & Hok).
  eexists. split; [apply hostvars_of_document|]. intros name.
  rewrite dict_get_on_values, replay_address, fmap_is_Some, address_of_is_Some.
  split.
  - intros (e & He & Hn). exists (ev_group e), (map PStr (members_of evs (ev_group e))).
    assert (Hg : ev_group e <> "_meta")
      by exact (proj1 (List.Forall_forall _ _) Hok e He).
    assert (Hin : In name (members_of evs (ev_group e)))
      by (apply members_of_In; exists e; auto).
    split; [exact Hg|]. split; [|apply in_map; exact Hin].
    rewrite group_of_document by exact Hg. rewrite replay_members.
    destruct (members_of evs (ev_group e)); [destruct Hin | reflexivity].
  - intros (g & members & Hg & Hgroup & Hin).
    rewrite group_of_document in Hgroup by exact Hg. rewrite replay_members in Hgroup.
    destruct (members_of evs g) as [|n l] eqn:E; [discriminate Hgroup|].
    change (map PStr <$> Some (n :: l)) with (Some (map PStr (n :: l))) in Hgroup.
    injection Hgroup as <-.
    change (PStr n :: map PStr l) with (map PStr (n :: l)) in Hin.
    apply In_map_PStr in Hin.
    rewrite <- E in Hin. apply members_of_In in Hin as (e & He & _ & Hn).
    exists e. auto.
Qed.

(** ** The builder: its calls and its failures *)

Section completes_loops.
Context {X : Type} (step : X -> state -> option state)
  (body : X -> pyval -> M pyval) (calls_of : X -> list call).
Hypothesis body_completes :
  forall x st st' w, step x st = Some st' ->
                     completes (body x (document st)) w st' (calls_of x).

Lemma for_each_completes (xs : list X) :
  forall st st' w,
    run_steps step xs st = Some st' ->
    completes (for_each xs body (document st)) w st' (flat_map calls_of xs).
Proof.
  induction xs as [|x xs IH]; intros st st' w; cbn [run_steps]; unfold completes.
  - intros [= <-]. cbn [for_each flat_map]. rewrite log_calls_nil. reflexivity.
  - destruct (step x st) as [st1|] eqn:E; cbn [mbind option_bind]; [|discriminate].
    intros Hrest. cbn [for_each flat_map]. rewrite bind_run.
    rewrite (body_completes x st st1 w E).
    rewrite (IH st1 st' _ Hrest), log_calls_app. reflexivity.
Qed.
End completes_loops.

Lemma vif_body_completes (s : Session) (record : VM.record) (i : string)
    (st st' : state) (w : world) :
  vif_step s record i st = Some st' ->
  completes (vif_body s record i (document st)) w st' (vif_calls s record i).
Proof.
  intros Hstep. unfold vif_step in Hstep.
  destruct (vif_event s record i) as [e|] eqn:He; [|discriminate Hstep].
  cbn [mbind option_bind] in Hstep.
  destruct (String.eqb (ev_group e) "_meta") eqn:Hg; [discriminate Hstep|].
  injection Hstep as <-.
  destruct (vif_event_inv s record i e He) as (vif & net & metrics & Hv & Hn & Hm & ->).
  cbn [ev_group] in Hg.
  unfold completes, vif_body, vif_calls.
  unfold xenapi_VIF_get_record, xenapi_network_get_record,
    xenapi_VM_guest_metrics_get_record.
  rewrite Hv, bind_run, remote_run, bind_run, remote_run, Hn, bind_run.
  unfold lift at 1.
  rewrite setdefault_append_document, Hg, bind_run, remote_run, Hm.
  unfold lift.
  change (PDict [("ansible_host", first_ip metrics)]) with (host_entry (first_ip metrics)).
  rewrite set_hostvars_document, !log_calls_app. reflexivity.
Qed.

Lemma vm_body_completes (s : Session) (vm : string) (st st' : state) (w : world) :
  vm_step s vm st = Some st' ->
  completes (vm_body s vm (document st)) w st' (vm_calls s vm).
Proof.
  intros Hstep. unfold vm_step in Hstep.
  unfold completes, vm_body, vm_calls, xenapi_VM_get_record.
  rewrite bind_run, remote_run.
  destruct (VM_get_record s vm) as [record|]; [|discriminate Hstep].
  cbv beta iota in Hstep. fold (eligible record). destruct (eligible record).
  - rewrite (for_each_completes (vif_step s record) (vif_body s record)
               (vif_calls s record) (vif_body_completes s record) _ _ _ _ Hstep).
    rewrite log_calls_app. reflexivity.
  - injection Hstep as <-. reflexivity.
Qed.

Lemma list_inventory_completes (s : Session) (st : state) (w : world) :
  outcome s = Some st ->
  list_inventory s w = (Ok (document st), log_calls (listing_calls s) w).
Proof.
  intros Hsteps. unfold outcome in Hsteps.
  unfold list_inventory, try_except, xenapi_VM_get_all, listing_calls.
  rewrite bind_run, remote_run.
  destruct (VM_get_all s) as [all_vms|]; [|discriminate Hsteps].
  change (PDict [("_meta", PDict [("hostvars", PDict [])])]) with (document initial).
  rewrite (for_each_completes (vm_step s) (vm_body s) (vm_calls s)
             (vm_body_completes s) _ _ _ _ Hsteps).
  rewrite log_calls_app. reflexivity.
Qed.

(** X4: a build that returns has made one [VM.get_all], one
    [VM.get_record] per listed VM and, for every interface of an eligible
    VM, one VIF, one network and one guest-metrics fetch, in the order of the
    loops, and has changed nothing else. *)
Theorem build_calls (s : Session) (w w' : world) (inv : pyval) :
  list_inventory s w = (Ok inv, w') ->
  w' = log_calls (listing_calls s) w
  /\ rpc_log w' = rpc_log w ++ listing_calls s.
Proof.
  intros Hrun. destruct (list_inventory_Ok s w w' inv Hrun) as (st & Hout & _ & _).
  rewrite (list_inventory_completes s st w Hout) in Hrun.
  injection Hrun as _ <-. split; reflexivity.
Qed.

Lemma list_inventory_raises (s : Session) (w w' : world) (e : exn) :
  list_inventory s w = (Raise e, w') ->
  exists l,
    Forall (fun c => is_listing c = false) l
    /\ ((exists details,
            e = SystemExit 1
            /\ w' = log_line ("[Error] : " +:+ details) (log_calls (CallVMGetAll :: l) w))
        \/ (e = AttributeError /\ w' = log_calls (CallVMGetAll :: l) w)).
Proof.
  unfold list_inventory, try_except, xenapi_VM_get_all.
  rewrite bind_run, remote_run.
  destruct (VM_get_all s) as [all_vms|d].
  2:{ intros [= <- <-]. exists []. split; [constructor|]. left. exists d. auto. }
  change (PDict [("_meta", PDict [("hostvars", PDict [])])]) with (document initial).
  destruct (for_each_builds (vm_step s) (vm_body s) (vm_body_builds s) all_vms initial
              (log_calls [CallVMGetAll] w)) as (l & r & Hrun & Hl & Hr).
  rewrite Hrun, log_calls_app.
  destruct (run_steps (vm_step s) all_vms initial) as [st|].
  - subst r. discriminate.
  - destruct Hr as (e' & -> & [->|[d ->]]).
    + intros [= <- <-]. exists l. split; [exact Hl|]. right. auto.
    + intros [= <- <-]. exists l. split; [exact Hl|]. left. exists d. auto.
Qed.

(** X5: when a build fails it leaves the files and the clock as they were
    and has asked for the listing once; a failure of the session ends in
    [SystemExit(1)] after one line ["[Error] : ..."] on the standard output,
    and the only other exception is the [AttributeError] of an [append] on
    the reserved entry, which prints nothing. *)
Theorem failed_build_exits_or_escapes (s : Session) (w w' : world) (e : exn) :
  list_inventory s w = (Raise e, w') ->
  same_disk w w'
  /\ fetches w' = S (fetches w)
  /\ ((e = SystemExit 1
       /\ exists details, stdout w' = stdout w ++ ["[Error] : " +:+ details])
      \/ (e = AttributeError /\ stdout w' = stdout w)).
Proof.
  intros Hrun. destruct (list_inventory_raises s w w' e Hrun) as (l & Hl & H).
  pose proof (fetches_listing l w Hl) as Hf.
  destruct H as [(d & -> & ->) | (-> & ->)].
  - split; [repeat split|]. split; [exact Hf|]. left. split; [reflexivity|].
    exists d. reflexivity.
  - split; [repeat split|]. split; [exact Hf|]. right. split; reflexivity.
Qed.

Lemma run_steps_each {X S} (step : X -> S -> option S) (xs : list X) :
  forall st st', run_steps step xs st = Some st' ->
                 forall x, In x xs -> exists st0 st1, step x st0 = Some st1.
Proof.
  induction xs as [|y xs IH]; intros st st'; cbn [run_steps]; [intros _ x []|].
  destruct (step y st) as [st1|] eqn:E; cbn [mbind option_bind]; [|discriminate].
  intros Hrest x [<-|Hx]; [eauto | exact (IH _ _ Hrest x Hx)].
Qed.

Lemma outcome_answers (s : Session) (st : state) : outcome s = Some st -> answers s = true.
Proof.
  unfold outcome, answers. destruct (VM_get_all s) as [all_vms|]; [|discriminate].
  intros Hsteps. apply forallb_forall. intros vm Hvm.
  destruct (run_steps_each _ _ _ _ Hsteps vm Hvm) as (st0 & st1 & Hvmstep).
  unfold vm_step in Hvmstep.
  destruct (VM_get_record s vm) as [record|]; [|discriminate Hvmstep].
  destruct (eligible record); [|reflexivity].
  apply forallb_forall. intros i Hi.
  destruct (run_steps_each _ _ _ _ Hvmstep i Hi) as (st2 & st3 & Hvif).
  unfold vif_step, vif_event in Hvif.
  destruct (VIF_get_record s i) as [vif|]; [|discriminate Hvif].
  destruct (network_get_record s (VIF.network vif)) as [net|]; [|discriminate Hvif].
  destruct (VM_guest_metrics_get_record s (VM.guest_metrics record));
    [|discriminate Hvif].
  cbn [mbind option_bind ev_group] in Hvif.
  destruct (String.eqb (network.name_label net) "_meta"); [discriminate Hvif | reflexivity].
Qed.

Section calm_loops.
Context {X : Type} (step : X -> state -> option state) (body : X -> pyval -> M pyval).

Lemma for_each_calm (xs : list X) :
  (forall x, In x xs -> forall st w, calm (body x (document st)) w (step x st)) ->
  forall st w, calm (for_each xs body (document st)) w (run_steps step xs st).
Proof.
  induction xs as [|x xs IH]; intros Hbody st w; unfold calm.
  - exists [], (Ok (document st)). rewrite log_calls_nil. split; reflexivity.
  - destruct (Hbody x (or_introl eq_refl) st w) as (l & r & Hrun & Hr).
    cbn [for_each run_steps]. rewrite bind_run, Hrun.
    destruct (step x st) as [st'|]; cbn [mbind option_bind].
    + subst r.
      destruct (IH (fun y Hy => Hbody y (or_intror Hy)) st' (log_calls l w))
        as (l' & r' & Hrun' & Hr').
      exists (l ++ l'), r'. rewrite Hrun', log_calls_app. split; [reflexivity | exact Hr'].
    + subst r. exists l, (Raise AttributeError). split; reflexivity.
Qed.
End calm_loops.

(** X6: when every record fetch replies and an interface of an eligible VM
    is on a network named ["_meta"], the build raises [AttributeError]: the
    exception is not the one [list_inventory] handles, so it escapes and
    nothing is printed. *)
Theorem reserved_network_name_escapes
    (s : Session) (w : world) (all_vms : list string) (vm : string)
    (record : VM.record) (i : string) (vif : VIF.record) (net : network.record) :
  replies s = true ->
  VM_get_all s = Reply all_vms ->
  In vm all_vms ->
  VM_get_record s vm = Reply record ->
  eligible record = true ->
  In i (VM.VIFs record) ->
  VIF_get_record s i = Reply vif ->
  network_get_record s (VIF.network vif) = Reply net ->
  network.name_label net = "_meta" ->
  exists l, list_inventory s w = (Raise AttributeError, log_calls l w).
Proof.
  intros Hrep Hall Hin Hr Hel Hi Hv Hn Hname.
  assert (Hans : answers s = false).
  { destruct (answers s) eqn:E; [|reflexivity]. exfalso.
    unfold answers in E. rewrite Hall in E.
    pose proof (proj1 (forallb_forall _ _) E vm Hin) as Hrec. cbv beta in Hrec.
    rewrite Hr, Hel in Hrec.
    pose proof (proj1 (forallb_forall _ _) Hrec i Hi) as Hvif. cbv beta in Hvif.
    rewrite Hv, Hn, Hname in Hvif. discriminate Hvif. }
  clear Hall Hin Hr Hel Hi Hv Hn Hname. clear all_vms vm record i vif net.
  assert (Hout : outcome s = None).
  { destruct (outcome s) as [st|] eqn:E; [|reflexivity].
    apply outcome_answers in E. congruence. }
  unfold outcome in Hout. unfold replies in Hrep.
  unfold list_inventory, try_except, xenapi_VM_get_all.
  rewrite bind_run, remote_run.
  destruct (VM_get_all s) as [all_vms|]; [|discriminate Hrep].
  change (PDict [("_meta", PDict [("hostvars", PDict [])])]) with (document initial).
  assert (Hvm : forall vm, In vm all_vms ->
                           forall st w0, calm (vm_body s vm (document st)) w0 (vm_step s vm st)).
  { intros vm Hin st w0.
    pose proof (proj1 (forallb_forall _ _) Hrep vm Hin) as Hrec. cbv beta in Hrec.
    unfold calm, vm_body, vm_step, xenapi_VM_get_record. rewrite bind_run, remote_run.
    destruct (VM_get_record s vm) as [record|]; [|discriminate Hrec].
    fold (eligible record). destruct (eligible record).
    2:{ eexists _, _. split; reflexivity. }
    assert (Hvif : forall i, In i (VM.VIFs record) ->
                     forall st1 w1, calm (vif_body s record i (document st1)) w1
                                      (vif_step s record i st1)).
    { intros i Hi st1 w1.
      pose proof (proj1 (forallb_forall _ _) Hrec i Hi) as Hf. cbv beta in Hf.
      unfold calm, vif_body, vif_step, vif_event.
      unfold xenapi_VIF_get_record, xenapi_network_get_record,
        xenapi_VM_guest_metrics_get_record.
      rewrite bind_run, remote_run.
      destruct (VIF_get_record s i) as [vif|]; [|discriminate Hf].
      rewrite bind_run, remote_run.
      destruct (network_get_record s (VIF.network vif)) as [net|]; [|discriminate Hf].
      destruct (VM_guest_metrics_get_record s (VM.guest_metrics record)) as [m|] eqn:Hm;
        [|discriminate Hf].
      cbn [mbind option_bind ev_group].
      rewrite bind_run. unfold lift at 1. rewrite setdefault_append_document.
      destruct (String.eqb (network.name_label net) "_meta").
      - rewrite log_calls_app. eexists _, _. split; reflexivity.
      - rewrite bind_run, remote_run. unfold lift.
        change (PDict [("ansible_host", first_ip m)]) with (host_entry (first_ip m)).
        rewrite set_hostvars_document, !log_calls_app.
        eexists _, _. split; reflexivity. }
    destruct (for_each_calm (vif_step s record) (vif_body s record) (VM.VIFs record)
                Hvif st (log_calls [CallVMGetRecord vm] w0)) as (l & r & Hrun & Hr).
    rewrite Hrun, log_calls_app. eexists _, _. split; [reflexivity | exact Hr]. }
  destruct (for_each_calm (vm_step s) (vm_body s) all_vms Hvm initial
              (log_calls [CallVMGetAll] w)) as (l & r & Hrun & Hr).
  rewrite Hrun, log_calls_app. rewrite Hout in Hr. subst r.
  eexists. reflexivity.
Qed.

(** ** The lookup: refresh, stale and fresh cache, unusable paths *)

Lemma list_inventory_any_world (s : Session) (w w1 : world) (doc : pyval) :
  list_inventory s w = (Ok doc, w1) ->
  forall w0, list_inventory s w0 = (Ok doc, log_calls (listing_calls s) w0).
Proof.
  intros Hrun w0. destruct (list_inventory_Ok s w w1 doc Hrun) as (st & Hout & -> & _).
  exact (list_inventory_completes s st w0 Hout).
Qed.

Lemma fetches_listing_calls (s : Session) (w w1 : world) (doc : pyval) :
  list_inventory s w = (Ok doc, w1) ->
  forall w0, fetches (log_calls (listing_calls s) w0) = S (fetches w0).
Proof.
  intros Hrun w0. pose proof (list_inventory_any_world s w w1 doc Hrun w0) as H0.
  destruct (list_inventory_Ok s w0 _ doc H0) as (_ & _ & _ & l & Hl & Heq).
  rewrite Heq. exact (fetches_listing l w0 Hl).
Qed.

(** [list_and_save] over a cache file that is already there. *)
Lemma list_and_save_over_file
    (s : Session) (p : string) (w w1 : world) (doc : pyval) (mtime : Z) (text : string) :
  lookup_path w p = Some (RegularFile mtime text) ->
  list_inventory s w = (Ok doc, w1) ->
  exists w2,
    list_and_save s (Some p) w = (Ok doc, w2)
    /\ lookup_path w2 p = Some (RegularFile (clock w) (dumps doc))
    /\ fetches w2 = S (fetches w).
Proof.
  intros Hfile Hrun. rewrite list_and_save_run.
  rewrite (list_inventory_any_world s w w1 doc Hrun w).
  assert (Hsave : save (Some p) doc (log_calls (listing_calls s) w)
                  = (Ok tt, set_fs (insert p (RegularFile (clock w) (dumps doc)))
                              (set_fs (insert p (RegularFile (clock w) EmptyString))
                                 (log_calls (listing_calls s) w)))).
  { unfold save, open_w. rewrite bind_run.
    change (lookup_path (log_calls (listing_calls s) w) p) with (lookup_path w p).
    rewrite Hfile. reflexivity. }
  rewrite Hsave. eexists. split; [reflexivity|].
  apply save_Ok in Hsave as (Hnew & Hlog & _). split; [exact Hnew|].
  unfold fetches. rewrite Hlog. exact (fetches_listing_calls s w w1 doc Hrun w).
Qed.

(** X7: a forced refresh ignores the cache file, whatever its age and
    content: it makes one live fetch, returns the fresh document and leaves
    its encoding in the file, stamped with the current time. *)
Theorem refresh_overwrites_cache
    (s : Session) (p : string) (ttl : Z) (w w1 : world) (doc : pyval)
    (mtime : Z) (text : string) :
  lookup_path w p = Some (RegularFile mtime text) ->
  list_inventory s w = (Ok doc, w1) ->
  exists w2,
    cached_inventory s (Some p) ttl true w = (Ok doc, w2)
    /\ lookup_path w2 p = Some (RegularFile (clock w) (dumps doc))
    /\ fetches w2 = S (fetches w).
Proof.
  intros Hfile Hrun. unfold cached_inventory.
  exact (list_and_save_over_file s p w w1 doc mtime text Hfile Hrun).
Qed.

Lemma ret_bind_run {A B} (a : A) (k : A -> M B) (w : world) :
  ((mret a : M A) ≫= k) w = k a w.
Proof. reflexivity. Qed.

Lemma ensure_parent_run (p : string) (w : world) :
  ensure_parent (Some p) w
  = match lookup_path w (PosixPath.dirname p) with
    | Some _ => (Ok tt, w)
    | None =>
        try_except
          (if truthy (Some p) then os_makedirs (PosixPath.dirname p)
           else raise (OSError None ("cache_path not defined: " +:+ format_path (Some p))))
          (fun exc =>
             match exc with
             | OSError errno detail =>
                 if bool_decide (errno = Some EACCES)
                 then Some (print (str_OSError errno detail);; exit 1)
                 else if negb (bool_decide (errno = Some EEXIST))
                 then Some (raise exc)
                 else Some (mret tt)
             | _ => None
             end) w
    end.
Proof.
  unfold ensure_parent, os_path_dirname. rewrite ret_bind_run, bind_run.
  unfold os_path_exists. destruct (lookup_path w (PosixPath.dirname p)); reflexivity.
Qed.

Lemma ensure_parent_present (p : string) (w : world) :
  is_Some (lookup_path w (PosixPath.dirname p)) ->
  ensure_parent (Some p) w = (Ok tt, w).
Proof.
  intros [n Hn]. rewrite ensure_parent_run, Hn. reflexivity.
Qed.

(** X8: a cache file whose age has reached the TTL is not read: with its
    directory in place the lookup makes one live fetch, returns the fresh
    document and overwrites the file. *)
Theorem stale_cache_is_refetched
    (s : Session) (p : string) (ttl : Z) (w w1 : world) (doc : pyval)
    (mtime : Z) (text : string) :
  lookup_path w p = Some (RegularFile mtime text) ->
  ttl <= clock w - mtime ->
  is_Some (lookup_path w (PosixPath.dirname p)) ->
  list_inventory s w = (Ok doc, w1) ->
  exists w2,
    cached_inventory s (Some p) ttl false w = (Ok doc, w2)
    /\ lookup_path w2 p = Some (RegularFile (clock w) (dumps doc))
    /\ fetches w2 = S (fetches w).
Proof.
  intros Hfile Hage Hparent Hrun. unfold cached_inventory.
  rewrite bind_run, cache_is_fresh_run, Hfile.
  rewrite (proj2 (Z.ltb_ge _ _) Hage).
  rewrite bind_run, (ensure_parent_present p w Hparent).
  exact (list_and_save_over_file s p w w1 doc mtime text Hfile Hrun).
Qed.

(** X9: inside the TTL a cache file for whose text [json.load] returns a
    value answers the lookup: the value is returned as it is, whatever its
    shape, the session is not called and nothing is written. *)
Theorem fresh_cache_answers
    (s : Session) (p : string) (ttl : Z) (w : world)
    (mtime : Z) (text : string) (value : pyval) :
  lookup_path w p = Some (RegularFile mtime text) ->
  clock w - mtime < ttl ->
  json_load w text = Parsed value ->
  cached_inventory s (Some p) ttl false w = (Ok value, w).
Proof. exact (cache_hit s p ttl w mtime text value). Qed.

(** X10: when the live fetch of a forced refresh fails, the failure is the
    outcome of the call and no file is touched: the previous cache
    survives. *)
Theorem failed_refresh_keeps_cache
    (s : Session) (path : option string) (ttl : Z) (w w1 : world) (e : exn) :
  list_inventory s w = (Raise e, w1) ->
  cached_inventory s path ttl true w = (Raise e, w1) /\ fs w1 = fs w.
Proof.
  intros Hrun. unfold cached_inventory. rewrite list_and_save_run, Hrun.
  split; [reflexivity|].
  destruct (list_inventory_raises s w w1 e Hrun) as (l & _ & [(d & _ & ->) | (_ & ->)]);
    reflexivity.
Qed.

(** X11: a cache path without a directory part cannot be used by a lookup
    that misses: [os.path.dirname] is empty, [os.makedirs('')] raises
    [FileNotFoundError], and the call ends there, before any fetch. *)
Theorem bare_file_name_miss_fails
    (s : Session) (p : string) (ttl : Z) (w : world) :
  p <> EmptyString ->
  PosixPath.dirname p = EmptyString ->
  (forall mtime text,
      lookup_path w p = Some (RegularFile mtime text) -> ttl <= clock w - mtime) ->
  cached_inventory s (Some p) ttl false w
  = (Raise (OSError (Some ENOENT) EmptyString), w).
Proof.
  intros Hp Hdir Hstale. unfold cached_inventory.
  rewrite bind_run, cache_is_fresh_run.
  assert (Hfresh : match lookup_path w p with
                   | Some (RegularFile mtime _) => clock w - mtime <? ttl
                   | _ => false
                   end = false).
  { destruct (lookup_path w p) as [[m t|m]|]; try reflexivity.
    apply Z.ltb_ge. exact (Hstale m t eq_refl). }
  rewrite Hfresh, bind_run, ensure_parent_run, Hdir.
  assert (Ht : truthy (Some p) = true).
  { unfold truthy. destruct (String.eqb_spec p EmptyString); [contradiction | reflexivity]. }
  unfold try_except. rewrite Ht. reflexivity.
Qed.

(** X12: when the directory of the cache path is missing and may not be
    created, the lookup prints one line and ends in [SystemExit(1)] without
    a fetch. *)
Theorem denied_directory_exits
    (s : Session) (p : string) (ttl : Z) (w : world) (t : Z) :
  lookup_path w p = None ->
  lookup_path w (PosixPath.dirname p) = None ->
  PosixPath.dirname p <> EmptyString ->
  lookup_path w (PosixPath.dirname (PosixPath.dirname p)) = Some (Directory t) ->
  PosixPath.dirname (PosixPath.dirname p) ∈ readonly w ->
  exists line w',
    cached_inventory s (Some p) ttl false w = (Raise (SystemExit 1), w')
    /\ stdout w' = stdout w ++ [line]
    /\ rpc_log w' = rpc_log w /\ fs w' = fs w.
Proof.
  intros Hfile Hparent Hd Hgrand Hro.
  set (d := PosixPath.dirname p) in *.
  assert (Hp : p <> EmptyString).
  { intros ->. apply Hd. reflexivity. }
  assert (Hmk : os_mkdir d w = (Raise (OSError (Some EACCES) d), w)).
  { unfold os_mkdir. destruct (String.eqb_spec d EmptyString); [contradiction|].
    rewrite Hparent. unfold parent_error.
    pose proof (lookup_path_nonempty _ _ _ Hgrand) as Hg.
    destruct (String.eqb_spec (PosixPath.dirname d) EmptyString); [contradiction|].
    rewrite Hgrand, bool_decide_eq_true_2 by exact Hro. reflexivity. }
  assert (Hmake : os_makedirs d w = (Raise (OSError (Some EACCES) d), w)).
  { unfold os_makedirs. destruct (String.length d) as [|n] eqn:Hlen.
    - exact Hmk.
    - cbn [makedirs_from]. cbv zeta. rewrite bind_run. unfold os_path_exists at 1.
      rewrite Hgrand. cbn [negb]. rewrite andb_false_r.
      rewrite ret_bind_run. exact Hmk. }
  exists (str_OSError (Some EACCES) d), (log_line (str_OSError (Some EACCES) d) w).
  unfold cached_inventory. rewrite bind_run, cache_is_fresh_run, Hfile, bind_run.
  rewrite ensure_parent_run. fold d. rewrite Hparent.
  assert (Ht : truthy (Some p) = true).
  { unfold truthy. destruct (String.eqb_spec p EmptyString); [contradiction | reflexivity]. }
  unfold try_except. rewrite Ht, Hmake.
  rewrite bool_decide_eq_true_2 by reflexivity.
  split; [reflexivity|]. repeat split.
Qed.

Lemma upto_last_sep_shorter (p : string) :
  p <> EmptyString -> PosixPath.ends_with_sep p = false ->
  (String.length (PosixPath.upto_last_sep p) < String.length p)%nat.
Proof.
  induction p as [|c r IH]; [congruence|]. intros _ Hend.
  cbn [PosixPath.upto_last_sep]. destruct (PosixPath.has_sep (String c r)) eqn:Hsep.
  - cbn [String.length]. destruct r as [|c' r'].
    + cbn in Hend, Hsep. rewrite Hend in Hsep. discriminate Hsep.
    + assert (Hr : (String.length (PosixPath.upto_last_sep (String c' r'))
                    < String.length (String c' r'))%nat) by (apply IH; [discriminate | exact Hend]).
      lia.
  - cbn [String.length]. lia.
Qed.

Lemma rstrip_sep_length (h : string) :
  (String.length (PosixPath.rstrip_sep h) <= String.length h)%nat.
Proof.
  induction h as [|c r IH]; [reflexivity|].
  cbn [PosixPath.rstrip_sep]. destruct (PosixPath.all_sep (String c r)); cbn [String.length]; lia.
Qed.

Lemma dirname_shorter (p : string) :
  p <> EmptyString -> PosixPath.ends_with_sep p = false ->
  (String.length (PosixPath.dirname p) < String.length p)%nat.
Proof.
  intros Hp Hend. pose proof (upto_last_sep_shorter p Hp Hend) as Hh.
  pose proof (rstrip_sep_length (PosixPath.upto_last_sep p)) as Hr.
  unfold PosixPath.dirname. destruct (_ && _); lia.
Qed.

(** X13: when only the last directory of the cache path is missing and may
    be created, a lookup creates it, makes one live fetch, writes the cache
    file in the new directory and returns the fresh document. *)
Theorem miss_creates_directory
    (s : Session) (p : string) (ttl : Z) (w w1 : world) (doc : pyval) (t : Z) :
  lookup_path w p = None ->
  PosixPath.ends_with_sep p = false ->
  lookup_path w (PosixPath.dirname p) = None ->
  PosixPath.dirname p <> EmptyString ->
  lookup_path w (PosixPath.dirname (PosixPath.dirname p)) = Some (Directory t) ->
  PosixPath.dirname (PosixPath.dirname p) ∉ readonly w ->
  list_inventory s w = (Ok doc, w1) ->
  exists w2,
    cached_inventory s (Some p) ttl false w = (Ok doc, w2)
    /\ lookup_path w2 (PosixPath.dirname p) = Some (Directory (clock w))
    /\ lookup_path w2 p = Some (RegularFile (clock w) (dumps doc))
    /\ fetches w2 = S (fetches w).
Proof.
  intros Hfile Hend Hparent Hd Hgrand Hrw Hrun.
  set (d := PosixPath.dirname p) in *.
  assert (Hp : p <> EmptyString).
  { intros ->. apply Hd. reflexivity. }
  assert (Hpd : d <> p).
  { intros Heq. pose proof (dirname_shorter p Hp Hend) as Hlt. fold d in Hlt.
    rewrite Heq in Hlt. lia. }
  set (wm := set_readonly (fun r => r ∖ {[d]})
               (set_fs (insert d (Directory (clock w))) w)).
  assert (Hmk : os_mkdir d w = (Ok tt, wm)).
  { unfold os_mkdir. destruct (String.eqb_spec d EmptyString); [contradiction|].
    rewrite Hparent. unfold parent_error.
    pose proof (lookup_path_nonempty _ _ _ Hgrand) as Hg.
    destruct (String.eqb_spec (PosixPath.dirname d) EmptyString); [contradiction|].
    rewrite Hgrand, bool_decide_eq_false_2 by exact Hrw. reflexivity. }
  assert (Hmake : os_makedirs d w = (Ok tt, wm)).
  { unfold os_makedirs. destruct (String.length d) as [|n] eqn:Hlen.
    - exact Hmk.
    - cbn [makedirs_from]. cbv zeta. rewrite bind_run. unfold os_path_exists at 1.
      rewrite Hgrand. cbn [negb]. rewrite andb_false_r.
      rewrite ret_bind_run. exact Hmk. }
  assert (Ht : truthy (Some p) = true).
  { unfold truthy. destruct (String.eqb_spec p EmptyString); [contradiction | reflexivity]. }
  unfold cached_inventory. rewrite bind_run, cache_is_fresh_run, Hfile, bind_run.
  rewrite ensure_parent_run. fold d. rewrite Hparent.
  unfold try_except. rewrite Ht, Hmake.
  rewrite list_and_save_run, (list_inventory_any_world s w w1 doc Hrun wm).
  assert (Hlook : forall q, q <> d ->
                    lookup_path (log_calls (listing_calls s) wm) q = lookup_path w q).
  { intros q Hq. unfold lookup_path. destruct (String.eqb q EmptyString); [reflexivity|].
    cbn [fs log_calls wm set_readonly set_fs]. apply lookup_insert_ne. congruence. }
  assert (Hdir : lookup_path (log_calls (listing_calls s) wm) d
                 = Some (Directory (clock w))).
  { unfold lookup_path. destruct (String.eqb_spec d EmptyString); [contradiction|].
    cbn [fs log_calls wm set_readonly set_fs]. apply lookup_insert_eq. }
  assert (Hsave : save (Some p) doc (log_calls (listing_calls s) wm)
                  = (Ok tt, set_fs (insert p (RegularFile (clock w) (dumps doc)))
                              (set_fs (insert p (RegularFile (clock w) EmptyString))
                                 (log_calls (listing_calls s) wm)))).
  { unfold save, open_w. rewrite bind_run, (Hlook p) by congruence.
    rewrite Hfile. destruct (String.eqb_spec p EmptyString); [contradiction|].
    rewrite Hend. fold d. unfold parent_error.
    destruct (String.eqb_spec d EmptyString); [contradiction|].
    rewrite Hdir.
    rewrite bool_decide_eq_false_2; [reflexivity|].
    cbn [readonly log_calls wm set_readonly set_fs].
    intros Hmem. apply elem_of_difference in Hmem as [_ Hout].
    apply Hout, elem_of_singleton. reflexivity. }
  rewrite Hsave. eexists. split; [reflexivity|].
  pose proof Hsave as Hs. apply save_Ok in Hs as (Hnew & Hlog & _).
  split; [|split; [exact Hnew|]].
  - unfold lookup_path. destruct (String.eqb_spec d EmptyString); [contradiction|].
    cbn [fs log_calls wm set_readonly set_fs].
    rewrite !lookup_insert_ne by congruence. apply lookup_insert_eq.
  - unfold fetches. rewrite Hlog.
    exact (fetches_listing_calls s w w1 doc Hrun wm).
Qed.

(** ** The script: [main] and [XenServer.__init__] *)

Section script.
Import Main.
Variable env : Surroundings.

Lemma run_keeps_terminal {A} (m : M A) : keeps_terminal (run m).
Proof.
  intros ps r ps'. unfold run. destruct (m (os ps)) as [r0 w0].
  intros H. injection H as _ <-. reflexivity.
Qed.

Lemma bind_keeps_terminal {A B} (m : P A) (k : A -> P B) :
  keeps_terminal m -> (forall a, keeps_terminal (k a)) -> keeps_terminal (m ≫= k).
Proof.
  intros Hm Hk ps r ps'. unfold mbind, P_bind.
  destruct (m ps) as [[a|e] ps1] eqn:E.
  - intros H. rewrite (Hk a _ _ _ H). exact (Hm _ _ _ E).
  - intros H. injection H as _ <-. exact (Hm _ _ _ E).
Qed.

Lemma ret_keeps_terminal {A} (a : A) : keeps_terminal (mret a : P A).
Proof. intros ps r ps' H. injection H as _ <-. reflexivity. Qed.

Lemma init_run (host user pass : option string) (ps : process) :
  init env host user pass ps
  = let ps1 := {| os := os ps; prompts := prompts ps;
                  logins := logins ps ++ [(at_url host, user, pass)];
                  atexit := atexit ps |} in
    match server env (at_url host) user pass with
    | Reply session =>
        (Ok session,
         {| os := os ps; prompts := prompts ps;
            logins := logins ps ++ [(at_url host, user, pass)];
            atexit := atexit ps ++ [at_url host] |})
    | Fault error =>
        (Raise (SystemExit 1),
         {| os := log_line ("Could not connect to XenServer: " +:+ error) (os ps);
            prompts := prompts ps;
            logins := logins ps ++ [(at_url host, user, pass)];
            atexit := atexit ps |})
    end.
Proof.
  unfold init, at_url, mbind, P_bind, Main.try_except, login.
  destruct (server env _ user pass); reflexivity.
Qed.

Lemma init_keeps_terminal (host user pass : option string) :
  keeps_terminal (init env host user pass).
Proof.
  intros ps r ps'. rewrite init_run. cbv zeta.
  destruct (server env _ user pass); intros H; injection H as _ <-; reflexivity.
Qed.

Lemma main_run (args : Namespace) (config : Config) (ps : process) :
  main env args config ps
  = match secret env args config with
    | Ok pw => dispatch env args config pw (ask (prompted args config) ps)
    | Raise e => (Raise e, ask true ps)
    end.
Proof.
  destruct ps as [w n l a].
  destruct args as [hn un pw g h rc lv], config as [cp ttl xh xu xp].
  assert (Hrest : forall (q : string) (ps1 : process),
    (let args := {| Main.hostname := hn; username := un; password := Some q;
                    guest := g; host := h; reload_cache := rc; list_vms := lv |} in
     let args := if negb (truthy (username args)) then set_username args xu else args in
     let args := if negb (truthy (Main.hostname args)) then set_hostname args xh
                 else args in
     if truthy (host args) || truthy (guest args) then
       run (print "{}");; run (exit 0)
     else if list_vms args || reload_cache args then
       x ← init env (Main.hostname args) (username args) (password args);
       data ← run (cached_inventory x (Some cp) ttl (reload_cache args));
       run (print (dumps data));; run (exit 0)
     else mret tt) ps1
    = dispatch env {| Main.hostname := hn; username := un; password := pw;
                      guest := g; host := h; reload_cache := rc; list_vms := lv |}
        {| cache_path := cp; cache_ttl := ttl; xen_host := xh; xen_user := xu;
           xen_pass := xp |} q ps1).
  { intros q ps1. unfold dispatch, or_configured. cbv zeta.
    cbn [password xen_pass xen_user xen_host Main.hostname username host guest
         list_vms reload_cache cache_path cache_ttl].
    destruct (truthy un);
      cbn [negb set_username set_hostname password Main.hostname username host guest
           list_vms reload_cache];
      destruct (truthy hn);
      cbn [negb set_username set_hostname password Main.hostname username host guest
           list_vms reload_cache];
      reflexivity. }
  unfold main, secret, prompted.
  cbn [password xen_pass xen_user xen_host Main.hostname username host guest
       list_vms reload_cache cache_path cache_ttl].
  destruct pw as [p|]; [destruct (String.eqb p EmptyString) eqn:Ep|].
  - cbn [truthy]. rewrite Ep. cbn [negb andb].
    destruct (String.eqb xp EmptyString) eqn:Exp.
    + cbn [truthy negb]; try rewrite Exp; cbn [negb].
      unfold mbind at 1, P_bind at 1. unfold mbind at 1, P_bind at 1.
      unfold getpass at 1.
      destruct (typed env) as [t|e]; [|reflexivity].
      unfold mret at 1, P_ret at 1. exact (Hrest t _).
    + cbn [truthy negb]; try rewrite Exp; cbn [negb].
      unfold mbind at 1, P_bind at 1. unfold mbind at 1, P_bind at 1.
      unfold mret at 1, P_ret at 1. unfold mret at 1, P_ret at 1.
      destruct l, a; exact (Hrest xp _).
  - cbn [truthy]. rewrite Ep. cbn [negb andb].
    unfold mbind at 1, P_bind at 1. unfold mret at 1, P_ret at 1.
    exact (Hrest p _).
  - cbn [truthy negb andb].
    destruct (String.eqb xp EmptyString) eqn:Exp.
    + cbn [truthy negb]; try rewrite Exp; cbn [negb].
      unfold mbind at 1, P_bind at 1. unfold mbind at 1, P_bind at 1.
      unfold getpass at 1.
      destruct (typed env) as [t|e]; [|reflexivity].
      unfold mret at 1, P_ret at 1. exact (Hrest t _).
    + cbn [truthy negb]; try rewrite Exp; cbn [negb].
      unfold mbind at 1, P_bind at 1. unfold mbind at 1, P_bind at 1.
      unfold mret at 1, P_ret at 1. unfold mret at 1, P_ret at 1.
      exact (Hrest xp _).
Qed.

Lemma secret_raises (args : Namespace) (config : Config) (e : exn) :
  secret env args config = Raise e -> prompted args config = true.
Proof.
  unfold secret, prompted, truthy.
  destruct (password args) as [p|]; [destruct (String.eqb p EmptyString)|];
    destruct (String.eqb (xen_pass config) EmptyString);
    intros H; try discriminate H; reflexivity.
Qed.

Lemma dispatch_keeps_terminal (args : Namespace) (config : Config) (pw : string) :
  keeps_terminal (dispatch env args config pw).
Proof.
  unfold dispatch. cbv zeta.
  destruct (truthy (host args) || truthy (guest args)).
  - apply bind_keeps_terminal; [apply run_keeps_terminal|].
    intros _. apply run_keeps_terminal.
  - destruct (list_vms args || reload_cache args); [|apply ret_keeps_terminal].
    apply bind_keeps_terminal; [apply init_keeps_terminal|]. intros x.
    apply bind_keeps_terminal; [apply run_keeps_terminal|]. intros data.
    apply bind_keeps_terminal; [apply run_keeps_terminal|].
    intros _. apply run_keeps_terminal.
Qed.


(** X15: without a host query and without [--list] or [--reload-cache],
    [main] returns normally (no [exit]): it prints nothing, attempts no
    login and leaves the disk alone. *)
Theorem no_request_does_nothing
    (args : Namespace) (config : Config) (ps : process) (pw : string) :
  truthy (host args) || truthy (guest args) = false ->
  list_vms args || reload_cache args = false ->
  secret env args config = Ok pw ->
  exists ps',
    main env args config ps = (Ok tt, ps')
    /\ os ps' = os ps
    /\ logins ps' = logins ps
    /\ atexit ps' = atexit ps.
Proof.
  intros Hq Hl Hpw. rewrite main_run, Hpw. unfold dispatch. cbv zeta. rewrite Hq, Hl.
  eexists. split; [reflexivity|]. split; [reflexivity|]. split; reflexivity.
Qed.

(** X16: the password is settled before the request is looked at: whatever
    the arguments ask for, the prompt is shown exactly when neither the
    command line nor the configuration gives a non-empty password, and then
    once; and when the prompt raises, that exception ends [main] with no
    login attempted and nothing printed or written. *)
Theorem password_settled_first
    (args : Namespace) (config : Config) (ps ps' : process) (r : result unit) :
  main env args config ps = (r, ps') ->
  prompts ps' = (if prompted args config then S (prompts ps) else prompts ps)
  /\ forall e, secret env args config = Raise e ->
       r = Raise e /\ os ps' = os ps /\ logins ps' = logins ps
       /\ atexit ps' = atexit ps.
Proof.
  rewrite main_run. destruct (secret env args config) as [pw|e0] eqn:Hpw.
  - intros Hrun. split; [|intros e He; discriminate He].
    exact (dispatch_keeps_terminal args config pw _ _ _ Hrun).
  - intros Hrun. injection Hrun as <- <-.
    rewrite (secret_raises args config e0 Hpw). split; [reflexivity|].
    intros e He. injection He as <-. split; [reflexivity|].
    split; [reflexivity|]. split; reflexivity.
Qed.

(** X17: with [--list] or [--reload-cache] and no host query, [main] logs in
    once, at [http://] followed by the host name, with the host name and
    the user name of the command line when they are not empty and else the
    configured ones, and with the settled password; it registers the logout
    of that session, runs the lookup with the configured cache path and TTL
    and with [refresh] as [--reload-cache] says; a document is printed as
    JSON before exit status 0, and an exception of the lookup ends [main]
    with nothing more printed. *)
Theorem listing_connects_and_prints
    (args : Namespace) (config : Config) (ps : process) (pw : string)
    (session : Session) (r : result pyval) (w1 : world) :
  truthy (host args) || truthy (guest args) = false ->
  list_vms args || reload_cache args = true ->
  secret env args config = Ok pw ->
  server env (at_url (or_configured (Main.hostname args) (xen_host config)))
    (or_configured (username args) (xen_user config)) (Some pw) = Reply session ->
  cached_inventory session (Some (cache_path config)) (cache_ttl config)
    (reload_cache args) (os ps) = (r, w1) ->
  exists ps',
    main env args config ps
    = (match r with Ok _ => Raise (SystemExit 0) | Raise e => Raise e end, ps')
    /\ os ps' = match r with Ok data => log_line (dumps data) w1 | Raise _ => w1 end
    /\ logins ps'
       = logins ps ++ [(at_url (or_configured (Main.hostname args) (xen_host config)),
                        or_configured (username args) (xen_user config), Some pw)]
    /\ atexit ps'
       = atexit ps ++ [at_url (or_configured (Main.hostname args) (xen_host config))].
Proof.
  intros Hq Hl Hpw Hlogin Hrun. rewrite main_run, Hpw. unfold dispatch. cbv zeta.
  rewrite Hq, Hl. unfold mbind at 1, P_bind at 1. rewrite init_run. cbv zeta.
  rewrite Hlogin. unfold mbind at 1, P_bind at 1. unfold run at 1.
  cbn [os ask]. rewrite Hrun.
  destruct r as [data|e]; eexists; (split; [reflexivity|]); (split; [reflexivity|]);
    split; reflexivity.
Qed.

(** X18: when the server cannot be reached or refuses the login, [main]
    prints [Could not connect to XenServer: ] with the text of the error and
    exits with status 1; the cache is neither read nor written, no remote
    call is made and no logout is registered. *)
Theorem refused_login_exits
    (args : Namespace) (config : Config) (ps : process) (pw error : string) :
  truthy (host args) || truthy (guest args) = false ->
  list_vms args || reload_cache args = true ->
  secret env args config = Ok pw ->
  server env (at_url (or_configured (Main.hostname args) (xen_host config)))
    (or_configured (username args) (xen_user config)) (Some pw) = Fault error ->
  exists ps',
    main env args config ps = (Raise (SystemExit 1), ps')
    /\ os ps' = log_line ("Could not connect to XenServer: " +:+ error) (os ps)
    /\ atexit ps' = atexit ps.
Proof.
  intros Hq Hl Hpw Hlogin. rewrite main_run, Hpw. unfold dispatch. cbv zeta.
  rewrite Hq, Hl. unfold mbind at 1, P_bind at 1. rewrite init_run. cbv zeta.
  rewrite Hlogin. eexists. split; [reflexivity|]. split; reflexivity.
Qed.

(** X19: after a successful [--reload-cache] the line printed last and the
    text of the cache file are the same JSON text, the file bears the time
    of the call, and one live fetch was made. *)
Theorem reload_prints_what_it_caches
    (args : Namespace) (config : Config) (ps : process) (pw : string)
    (session : Session) (data : pyval) (w1 : world) :
  truthy (host args) || truthy (guest args) = false ->
  reload_cache args = true ->
  secret env args config = Ok pw ->
  server env (at_url (or_configured (Main.hostname args) (xen_host config)))
    (or_configured (username args) (xen_user config)) (Some pw) = Reply session ->
  cached_inventory session (Some (cache_path config)) (cache_ttl config) true (os ps)
  = (Ok data, w1) ->
  exists ps',
    main env args config ps = (Raise (SystemExit 0), ps')
    /\ stdout (os ps') = stdout w1 ++ [dumps data]
    /\ lookup_path (os ps') (cache_path config)
       = Some (RegularFile (clock (os ps)) (dumps data))
    /\ fetches (os ps') = S (fetches (os ps)).
Proof.
  intros Hq Hr Hpw Hlogin Hrun. rewrite main_run, Hpw. unfold dispatch. cbv zeta.
  rewrite Hq, Hr, orb_true_r. unfold mbind at 1, P_bind at 1. rewrite init_run.
  cbv zeta. rewrite Hlogin. unfold mbind at 1, P_bind at 1. unfold run at 1.
  cbn [os ask]. rewrite Hrun.
  unfold cached_inventory in Hrun.
  apply list_and_save_Ok in Hrun as (_ & Hfile & Hfetch).
  eexists. split; [reflexivity|]. split; [reflexivity|]. split; [exact Hfile|exact Hfetch].
Qed.

End script.

(** ** The properties on the sample data *)

Section cases.
Import Main Cases.

Lemma groups_list_one_name_per_interface_witness :
  list_inventory pool bare = (Ok inventory, log_calls calls bare)
  /\ exists evs,
       visits pool = Some evs
       /\ forall group,
            group <> "_meta" ->
            group_of inventory group
            = match members_of evs group with
              | [] => None
              | names => Some (map PStr names)
              end.
Proof.
  assert (H : list_inventory pool bare = (Ok inventory, log_calls calls bare))
    by (vm_compute; reflexivity).
  split; [exact H|].
  exact (groups_list_one_name_per_interface pool bare (log_calls calls bare) inventory H).
Defined.

Lemma hostvars_hold_last_address_witness :
  list_inventory pool warm = (Ok inventory, log_calls calls warm)
  /\ exists evs hv,
       visits pool = Some evs
       /\ hostvars_of inventory = Some hv
       /\ forall name,
            dict_get hv name
            = (fun ip => PDict [("ansible_host", ip)]) <$> address_of evs name.
Proof.
  assert (H : list_inventory pool warm = (Ok inventory, log_calls calls warm))
    by (vm_compute; reflexivity).
  split; [exact H|].
  exact (hostvars_hold_last_address pool warm (log_calls calls warm) inventory H).
Defined.

Lemma built_document_is_inventory_witness :
  list_inventory pool corrupted = (Ok inventory, log_calls calls corrupted)
  /\ inventory_document inventory = true.
Proof.
  assert (H : list_inventory pool corrupted = (Ok inventory, log_calls calls corrupted))
    by (vm_compute; reflexivity).
  split; [exact H|].
  exact (built_document_is_inventory pool corrupted (log_calls calls corrupted)
           inventory H).
Defined.

Lemma build_calls_witness :
  list_inventory pool locked = (Ok inventory, log_calls calls locked)
  /\ log_calls calls locked = log_calls (listing_calls pool) locked
  /\ rpc_log (log_calls calls locked) = rpc_log locked ++ listing_calls pool.
Proof.
  assert (H : list_inventory pool locked = (Ok inventory, log_calls calls locked))
    by (vm_compute; reflexivity).
  split; [exact H|].
  exact (build_calls pool locked (log_calls calls locked) inventory H).
Defined.

Lemma failed_build_exits_or_escapes_witness :
  let w' := log_line "[Error] : SESSION_INVALID" (log_calls [CallVMGetAll] warm) in
  list_inventory unreachable warm = (Raise (SystemExit 1), w')
  /\ same_disk warm w'
  /\ fetches w' = S (fetches warm)
  /\ ((SystemExit 1 = SystemExit 1
       /\ exists details, stdout w' = stdout warm ++ ["[Error] : " +:+ details])
      \/ (SystemExit 1 = AttributeError /\ stdout w' = stdout warm)).
Proof.
  intros w'.
  assert (H : list_inventory unreachable warm = (Raise (SystemExit 1), w'))
    by (vm_compute; reflexivity).
  split; [exact H|].
  exact (failed_build_exits_or_escapes unreachable warm w' (SystemExit 1) H).
Defined.

Lemma reserved_network_name_escapes_witness :
  replies shadowing = true
  /\ VM_get_record shadowing "vm-c" = Reply vm_c
  /\ network_get_record shadowing "net-backup" = Reply {| network.name_label := "_meta" |}
  /\ exists l, list_inventory shadowing bare = (Raise AttributeError, log_calls l bare).
Proof.
  assert (H1 : replies shadowing = true) by (vm_compute; reflexivity).
  assert (H2 : VM_get_all shadowing = Reply listing) by reflexivity.
  assert (H3 : In "vm-c" listing) by (simpl; auto).
  assert (H4 : VM_get_record shadowing "vm-c" = Reply vm_c) by reflexivity.
  assert (H5 : eligible vm_c = true) by reflexivity.
  assert (H6 : In "vif-c2" (VM.VIFs vm_c)) by (simpl; auto).
  assert (H7 : VIF_get_record shadowing "vif-c2" = Reply {| VIF.network := "net-backup" |})
    by reflexivity.
  assert (H8 : network_get_record shadowing (VIF.network {| VIF.network := "net-backup" |})
               = Reply {| network.name_label := "_meta" |}) by reflexivity.
  assert (H9 : network.name_label {| network.name_label := "_meta" |} = "_meta")
    by reflexivity.
  split; [exact H1|]. split; [exact H4|]. split; [exact H8|].
  exact (reserved_network_name_escapes shadowing bare listing "vm-c" vm_c "vif-c2"
           {| VIF.network := "net-backup" |} {| network.name_label := "_meta" |}
           H1 H2 H3 H4 H5 H6 H7 H8 H9).
Defined.

Lemma refresh_overwrites_cache_witness :
  lookup_path corrupted cache_file = Some (RegularFile 90 garbage)
  /\ exists w2,
       cached_inventory pool (Some cache_file) 0 true corrupted = (Ok inventory, w2)
       /\ lookup_path w2 cache_file = Some (RegularFile (clock corrupted) (dumps inventory))
       /\ fetches w2 = S (fetches corrupted).
Proof.
  assert (H1 : lookup_path corrupted cache_file = Some (RegularFile 90 garbage))
    by reflexivity.
  assert (H2 : list_inventory pool corrupted = (Ok inventory, log_calls calls corrupted))
    by (vm_compute; reflexivity).
  split; [exact H1|].
  exact (refresh_overwrites_cache pool cache_file 0 corrupted (log_calls calls corrupted)
           inventory 90 garbage H1 H2).
Defined.

Lemma stale_cache_is_refetched_witness :
  lookup_path warm cache_file = Some (RegularFile 90 (dumps inventory))
  /\ 10 <= clock warm - 90
  /\ exists w2,
       cached_inventory pool (Some cache_file) 10 false warm = (Ok inventory, w2)
       /\ lookup_path w2 cache_file = Some (RegularFile (clock warm) (dumps inventory))
       /\ fetches w2 = S (fetches warm).
Proof.
  assert (H1 : lookup_path warm cache_file = Some (RegularFile 90 (dumps inventory)))
    by reflexivity.
  assert (H2 : 10 <= clock warm - 90) by (vm_compute; discriminate).
  assert (H3 : is_Some (lookup_path warm (PosixPath.dirname cache_file)))
    by (exists (Directory 0); vm_compute; reflexivity).
  assert (H4 : list_inventory pool warm = (Ok inventory, log_calls calls warm))
    by (vm_compute; reflexivity).
  split; [exact H1|]. split; [exact H2|].
  exact (stale_cache_is_refetched pool cache_file 10 warm (log_calls calls warm)
           inventory 90 (dumps inventory) H1 H2 H3 H4).
Defined.

Lemma fresh_cache_answers_witness :
  lookup_path warm cache_file = Some (RegularFile 90 (dumps inventory))
  /\ clock warm - 90 < 11
  /\ cached_inventory unreachable (Some cache_file) 11 false warm = (Ok inventory, warm).
Proof.
  assert (H1 : lookup_path warm cache_file = Some (RegularFile 90 (dumps inventory)))
    by reflexivity.
  assert (H2 : clock warm - 90 < 11) by reflexivity.
  assert (H3 : json_load warm (dumps inventory) = Parsed inventory)
    by (vm_compute; reflexivity).
  split; [exact H1|]. split; [exact H2|].
  exact (fresh_cache_answers unreachable cache_file 11 warm 90 (dumps inventory)
           inventory H1 H2 H3).
Defined.

Lemma failed_refresh_keeps_cache_witness :
  let w' := log_line "[Error] : SESSION_INVALID" (log_calls [CallVMGetAll] warm) in
  cached_inventory unreachable (Some cache_file) 3600 true warm
  = (Raise (SystemExit 1), w')
  /\ fs w' = fs warm.
Proof.
  intros w'.
  assert (H : list_inventory unreachable warm = (Raise (SystemExit 1), w'))
    by (vm_compute; reflexivity).
  exact (failed_refresh_keeps_cache unreachable (Some cache_file) 3600 warm w'
           (SystemExit 1) H).
Defined.

Lemma bare_file_name_miss_fails_witness :
  PosixPath.dirname bare_cache_file = EmptyString
  /\ cached_inventory pool (Some bare_cache_file) 3600 false bare
     = (Raise (OSError (Some ENOENT) EmptyString), bare).
Proof.
  assert (H1 : bare_cache_file <> EmptyString) by discriminate.
  assert (H2 : PosixPath.dirname bare_cache_file = EmptyString)
    by (vm_compute; reflexivity).
  assert (H3 : forall mtime text,
             lookup_path bare bare_cache_file = Some (RegularFile mtime text) ->
             3600 <= clock bare - mtime).
  { intros mtime text Hfile. vm_compute in Hfile. discriminate Hfile. }
  split; [exact H2|].
  exact (bare_file_name_miss_fails pool bare_cache_file 3600 bare H1 H2 H3).
Defined.

Lemma denied_directory_exits_witness :
  lookup_path locked guarded_cache_file = None
  /\ PosixPath.dirname (PosixPath.dirname guarded_cache_file) ∈ readonly locked
  /\ exists line w',
       cached_inventory pool (Some guarded_cache_file) 3600 false locked
       = (Raise (SystemExit 1), w')
       /\ stdout w' = stdout locked ++ [line]
       /\ rpc_log w' = rpc_log locked /\ fs w' = fs locked.
Proof.
  assert (H1 : lookup_path locked guarded_cache_file = None) by (vm_compute; reflexivity).
  assert (H2 : lookup_path locked (PosixPath.dirname guarded_cache_file) = None)
    by (vm_compute; reflexivity).
  assert (H3 : PosixPath.dirname guarded_cache_file <> EmptyString)
    by (vm_compute; discriminate).
  assert (H4 : lookup_path locked (PosixPath.dirname (PosixPath.dirname guarded_cache_file))
               = Some (Directory 0)) by (vm_compute; reflexivity).
  assert (H5 : PosixPath.dirname (PosixPath.dirname guarded_cache_file) ∈ readonly locked)
    by (vm_compute; reflexivity).
  split; [exact H1|]. split; [exact H5|].
  exact (denied_directory_exits pool guarded_cache_file 3600 locked 0 H1 H2 H3 H4 H5).
Defined.

Lemma miss_creates_directory_witness :
  lookup_path bare nested_cache_file = None
  /\ lookup_path bare (PosixPath.dirname nested_cache_file) = None
  /\ exists w2,
       cached_inventory pool (Some nested_cache_file) 3600 false bare = (Ok inventory, w2)
       /\ lookup_path w2 (PosixPath.dirname nested_cache_file)
          = Some (Directory (clock bare))
       /\ lookup_path w2 nested_cache_file
          = Some (RegularFile (clock bare) (dumps inventory))
       /\ fetches w2 = S (fetches bare).
Proof.
  assert (H1 : lookup_path bare nested_cache_file = None) by (vm_compute; reflexivity).
  assert (H2 : PosixPath.ends_with_sep nested_cache_file = false)
    by (vm_compute; reflexivity).
  assert (H3 : lookup_path bare (PosixPath.dirname nested_cache_file) = None)
    by (vm_compute; reflexivity).
  assert (H4 : PosixPath.dirname nested_cache_file <> EmptyString)
    by (vm_compute; discriminate).
  assert (H5 : lookup_path bare (PosixPath.dirname (PosixPath.dirname nested_cache_file))
               = Some (Directory 0)) by (vm_compute; reflexivity).
  assert (H6 : PosixPath.dirname (PosixPath.dirname nested_cache_file) ∉ readonly bare)
    by apply not_elem_of_empty.
  assert (H7 : list_inventory pool bare = (Ok inventory, log_calls calls bare))
    by (vm_compute; reflexivity).
  split; [exact H1|]. split; [exact H3|].
  exact (miss_creates_directory pool nested_cache_file 3600 bare (log_calls calls bare)
           inventory 0 H1 H2 H3 H4 H5 H6 H7).
Defined.


Lemma no_request_does_nothing_witness :
  exists ps',
    main console no_request ini (boot warm) = (Ok tt, ps')
    /\ os ps' = warm
    /\ logins ps' = []
    /\ atexit ps' = [].
Proof.
  assert (H1 : truthy (host no_request) || truthy (guest no_request) = false)
    by reflexivity.
  assert (H2 : list_vms no_request || reload_cache no_request = false) by reflexivity.
  assert (H3 : secret console no_request ini = Ok "s3cret") by reflexivity.
  exact (no_request_does_nothing console no_request ini (boot warm) "s3cret" H1 H2 H3).
Defined.

Lemma password_settled_first_witness :
  main console host_request ini (boot bare)
  = (Raise (SystemExit 0),
     {| os := log_line "{}" bare; prompts := 1; logins := []; atexit := [] |})
  /\ prompted host_request ini = true.
Proof.
  assert (H : main console host_request ini (boot bare)
              = (Raise (SystemExit 0),
                 {| os := log_line "{}" bare; prompts := 1; logins := [];
                    atexit := [] |})) by reflexivity.
  split; [exact H|].
  destruct (password_settled_first console host_request ini (boot bare) _ _ H)
    as (Hprompts & _).
  destruct (prompted host_request ini); [reflexivity|discriminate Hprompts].
Defined.

Lemma listing_connects_and_prints_witness :
  secret console list_request ini = Ok "s3cret"
  /\ cached_inventory pool (Some cache_file) 3600 false warm = (Ok inventory, warm)
  /\ exists ps',
       main console list_request ini (boot warm) = (Raise (SystemExit 0), ps')
       /\ os ps' = log_line (dumps inventory) warm
       /\ logins ps' = [("http://xen1.example", Some "ansible", Some "s3cret")]
       /\ atexit ps' = ["http://xen1.example"].
Proof.
  assert (H1 : truthy (host list_request) || truthy (guest list_request) = false)
    by reflexivity.
  assert (H2 : list_vms list_request || reload_cache list_request = true) by reflexivity.
  assert (H3 : secret console list_request ini = Ok "s3cret") by reflexivity.
  assert (H4 : server console
                 (at_url (or_configured (Main.hostname list_request) (xen_host ini)))
                 (or_configured (username list_request) (xen_user ini)) (Some "s3cret")
               = Reply pool) by (vm_compute; reflexivity).
  assert (H5 : cached_inventory pool (Some (cache_path ini)) (cache_ttl ini)
                 (reload_cache list_request) (os (boot warm)) = (Ok inventory, warm))
    by (vm_compute; reflexivity).
  split; [exact H3|]. split; [exact H5|].
  exact (listing_connects_and_prints console list_request ini (boot warm) "s3cret"
           pool (Ok inventory) warm H1 H2 H3 H4 H5).
Defined.

Lemma refused_login_exits_witness :
  secret console wrong_password ini = Ok "hunter2"
  /\ exists ps',
       main console wrong_password ini (boot warm) = (Raise (SystemExit 1), ps')
       /\ os ps' = log_line "Could not connect to XenServer: Connection refused" warm
       /\ atexit ps' = [].
Proof.
  assert (H1 : truthy (host wrong_password) || truthy (guest wrong_password) = false)
    by reflexivity.
  assert (H2 : list_vms wrong_password || reload_cache wrong_password = true)
    by reflexivity.
  assert (H3 : secret console wrong_password ini = Ok "hunter2") by reflexivity.
  assert (H4 : server console
                 (at_url (or_configured (Main.hostname wrong_password) (xen_host ini)))
                 (or_configured (username wrong_password) (xen_user ini))
                 (Some "hunter2")
               = Fault "Connection refused") by (vm_compute; reflexivity).
  split; [exact H3|].
  exact (refused_login_exits console wrong_password ini (boot warm) "hunter2"
           "Connection refused" H1 H2 H3 H4).
Defined.

Lemma reload_prints_what_it_caches_witness :
  cached_inventory pool (Some cache_file) 3600 true warm = (Ok inventory, reloaded)
  /\ exists ps',
       main console reload_request ini (boot warm) = (Raise (SystemExit 0), ps')
       /\ stdout (os ps') = stdout reloaded ++ [dumps inventory]
       /\ lookup_path (os ps') cache_file = Some (RegularFile 100 (dumps inventory))
       /\ fetches (os ps') = 1%nat.
Proof.
  assert (H1 : truthy (host reload_request) || truthy (guest reload_request) = false)
    by reflexivity.
  assert (H2 : reload_cache reload_request = true) by reflexivity.
  assert (H3 : secret console reload_request ini = Ok "s3cret") by reflexivity.
  assert (H4 : server console
                 (at_url (or_configured (Main.hostname reload_request) (xen_host ini)))
                 (or_configured (username reload_request) (xen_user ini))
                 (Some "s3cret")
               = Reply pool) by (vm_compute; reflexivity).
  assert (H5 : cached_inventory pool (Some (cache_path ini)) (cache_ttl ini) true
                 (os (boot warm)) = (Ok inventory, reloaded))
    by (vm_compute; reflexivity).
  split; [exact H5|].
  exact (reload_prints_what_it_caches console reload_request ini (boot warm) "s3cret"
           pool inventory reloaded H1 H2 H3 H4 H5).
Defined.

Lemma hosts_and_members_agree_witness :
  list_inventory pool fetched = (Ok inventory, log_calls calls fetched)
  /\ exists hv,
       hostvars_of inventory = Some hv
       /\ forall name,
            is_Some (dict_get hv name)
            <-> exists group members,
                  group <> "_meta" /\ group_of inventory group = Some members
                  /\ In (PStr name) members.
Proof.
  assert (H : list_inventory pool fetched = (Ok inventory, log_calls calls fetched))
    by (vm_compute; reflexivity).
  split; [exact H|].
  exact (hosts_and_members_agree pool fetched (log_calls calls fetched) inventory H).
Defined.

End cases.
